(** * Scholarship advisory rule engine (SD23067_Lab3.py)

    A shallow embedding of the rule-matching core of the program:
    [OPERATORS], [rule_matches], [evaluate_applicant] and the parsed
    [DEFAULT_RULES_JSON] rule set, followed by the properties of the
    condition evaluator and of the decision resolver.

    Data model.  A facts mapping is a dictionary from strings to scalars
    (null, booleans, integers, binary64 floats, strings), as [main] builds
    it.  The resolver is embedded on rules of the documented shape: a rule
    is a dictionary read only through [.get] on the keys "name",
    "priority", "conditions" and "action", so it is a record of optional
    fields, with a string for the name, an integer for the priority, lists
    of scalars for the conditions and a record of optional strings for the
    action.  The condition evaluator is also embedded on arbitrary parsed
    JSON ([rule_matches_json]), where a condition may be any JSON value;
    [rule_matches] is its restriction to conditions that are lists of
    scalars ([rule_matches_json_scalars]).  Python strings are kept as
    their UTF-8 bytes: equality and the code-point order of two strings
    coincide with equality and the byte order of their encodings. *)

From Stdlib Require Import ZArith String Ascii List Bool Lia.
From Stdlib Require Import Floats.PrimFloat Floats.SpecFloat Floats.FloatOps.
From stdpp Require Import gmap strings.
Import ListNotations.

Set Warnings "-inexact-float".

Open Scope string_scope.
Open Scope Z_scope.

(** ** Python values and exceptions *)

Inductive value : Type :=
  | VNone
  | VBool (b : bool)
  | VInt (z : Z)
  | VFloat (f : float)
  | VStr (s : string).

Inductive exn : Type :=
  | TypeError
  | KeyError
  | ValueError
  | AttributeError
  | SystemError.

(** Outcome of a Python expression or call: a value or a raised exception. *)
Inductive res (A : Type) : Type :=
  | Ok (a : A)
  | Raise (e : exn).

Arguments Ok {A} a.
Arguments Raise {A} e.

(** [res] is a monad; stdpp's [x ← m; k] notation sequences statements,
    an exception raised by [m] skipping [k]. *)
#[global] Instance res_ret : MRet res := fun A a => Ok a.
#[global] Instance res_bind : MBind res := fun A B k m =>
  match m with
  | Ok a => k a
  | Raise e => Raise e
  end.

(** [try: m except Exception: h] *)
Definition try_except {A : Type} (m : res A) (h : res A) : res A :=
  match m with
  | Ok a => Ok a
  | Raise _ => h
  end.

(** ** Comparison of scalars

    bool is a subclass of int; int and float compare by their exact
    mathematical values; a NaN is unordered with everything. *)

Inductive num : Type :=
  | NInt (z : Z)
  | NFloat (f : float).

Definition num_of (v : value) : option num :=
  match v with
  | VBool b => Some (NInt (if b then 1 else 0))
  | VInt z => Some (NInt z)
  | VFloat f => Some (NFloat f)
  | VNone | VStr _ => None
  end.

(** Exact comparison of an integer with a binary64 float; [None] when the
    float is a NaN. *)
Definition Z_compare_float (z : Z) (f : float) : option comparison :=
  match Prim2SF f with
  | S754_nan => None
  | S754_infinity false => Some Lt
  | S754_infinity true => Some Gt
  | S754_zero _ => Some (z ?= 0)
  | S754_finite s m e =>
      let mz := if s then Z.neg m else Z.pos m in
      if 0 <=? e then Some (z ?= mz * 2 ^ e)
      else Some (z * 2 ^ (- e) ?= mz)
  end.

Definition float_compare (f g : float) : option comparison :=
  match PrimFloat.compare f g with
  | FEq => Some Eq
  | FLt => Some Lt
  | FGt => Some Gt
  | FNotComparable => None
  end.

Definition num_compare (a b : num) : option comparison :=
  match a, b with
  | NInt x, NInt y => Some (x ?= y)
  | NFloat f, NFloat g => float_compare f g
  | NInt x, NFloat g => Z_compare_float x g
  | NFloat f, NInt y => option_map CompOpp (Z_compare_float y f)
  end.

(** The five functions of the [operator] module stored in [OPERATORS]. *)
Inductive op : Type := Ge | Le | Gt_ | Lt_ | Eq_.

Definition holds (o : op) (c : option comparison) : bool :=
  match o, c with
  | _, None => false
  | Ge, Some Lt => false
  | Ge, Some _ => true
  | Le, Some Gt => false
  | Le, Some _ => true
  | Gt_, Some Gt => true
  | Gt_, Some _ => false
  | Lt_, Some Lt => true
  | Lt_, Some _ => false
  | Eq_, Some Eq => true
  | Eq_, Some _ => false
  end.

(** [operator.eq(a, b)]: never raises; values of unrelated types are
    unequal. *)
Definition py_eq (a b : value) : bool :=
  match num_of a, num_of b with
  | Some x, Some y => holds Eq_ (num_compare x y)
  | _, _ =>
      match a, b with
      | VNone, VNone => true
      | VStr s, VStr t => String.eqb s t
      | _, _ => false
      end
  end.

(** [operator.ge/le/gt/lt(a, b)]: numbers with numbers, strings with
    strings; anything else raises TypeError ("not supported between
    instances of ..."). *)
Definition py_order (o : op) (a b : value) : res bool :=
  match num_of a, num_of b with
  | Some x, Some y => Ok (holds o (num_compare x y))
  | _, _ =>
      match a, b with
      | VStr s, VStr t => Ok (holds o (Some (String.compare s t)))
      | _, _ => Raise TypeError
      end
  end.

Definition apply_op (o : op) (a b : value) : res bool :=
  match o with
  | Eq_ => Ok (py_eq a b)
  | _ => py_order o a b
  end.

(** The [OPERATORS] dictionary. *)
Definition OPERATORS : gmap string op :=
  {[ ">=" := Ge; "<=" := Le; ">" := Gt_; "<" := Lt_; "==" := Eq_ ]}.

(** The symbols that are keys of [OPERATORS]. *)
Definition operator_symbols : list value :=
  [VStr ">="; VStr "<="; VStr ">"; VStr "<"; VStr "=="].

(** [OPERATORS.get(op_str)]: the keys are strings, so a key of another
    type is never found. *)
Definition OPERATORS_get (op_str : value) : option op :=
  match op_str with
  | VStr s => OPERATORS !! s
  | _ => None
  end.

(** ** Facts, conditions, rules *)

(** [field in facts]: the keys of [facts] are strings, so a key of
    another type is never found. *)
Definition facts_get (facts : gmap string value) (field : value) : option value :=
  match field with
  | VStr s => facts !! s
  | _ => None
  end.

Definition contains (facts : gmap string value) (field : value) : bool :=
  match facts_get facts field with
  | Some _ => true
  | None => false
  end.

(** [facts[field]] *)
Definition getitem (facts : gmap string value) (field : value) : res value :=
  match facts_get facts field with
  | Some v => Ok v
  | None => Raise KeyError
  end.

(** [field, op_str, expected_value = cond] *)
Definition unpack3 (cond : list value) : res (value * value * value) :=
  match cond with
  | [a; b; c] => Ok (a, b, c)
  | _ => Raise ValueError
  end.

Record Action : Type := mkAction {
  act_decision : option string;
  act_reason : option string
}.

Record Rule : Type := mkRule {
  name : option string;
  priority : option Z;
  conditions : option (list (list value));
  action : option Action
}.

(** [d.get(key, default)] on an optional field. *)
Definition get {A : Type} (field : option A) (dflt : A) : A :=
  match field with
  | Some a => a
  | None => dflt
  end.

(** ** The condition evaluator *)

(** One iteration of the loop body of [rule_matches]: [Ok true] when the
    loop goes on to the next condition, [Ok false] for a [return False]. *)
Definition check_cond (cond : list value) (facts : gmap string value) : res bool :=
  if negb (Nat.eqb (length cond) 3) then Ok false
  else
    '(field, op_str, expected_value) ← unpack3 cond;
    if negb (contains facts field) then Ok false
    else
      actual_value ← getitem facts field;
      match OPERATORS_get op_str with
      | None => Ok false
      | Some op_func =>
          try_except
            (b ← apply_op op_func actual_value expected_value;
             if negb b then Ok false else Ok true)
            (Ok false)
      end.

Fixpoint rule_matches_loop (conds : list (list value)) (facts : gmap string value)
  : res bool :=
  match conds with
  | [] => Ok true
  | cond :: rest =>
      continue ← check_cond cond facts;
      if continue : bool then rule_matches_loop rest facts else Ok false
  end.

Definition rule_matches (rule : Rule) (facts : gmap string value) : res bool :=
  rule_matches_loop (get (conditions rule) []) facts.

(** Whether [rule_matches] returned [True]. *)
Definition matches (facts : gmap string value) (rule : Rule) : bool :=
  match rule_matches rule facts with
  | Ok true => true
  | _ => false
  end.

(** ** The decision resolver *)

Record Result : Type := mkResult {
  decision : string;
  reason : string;
  matched_rules : list string;
  selected_rule : option string
}.

(** The [for rule in rules] loop: [matched_rules] is the list built so
    far, extended by [append] with every rule that matches. *)
Fixpoint collect_matched (rules : list Rule) (facts : gmap string value)
    (matched_rules : list Rule) : res (list Rule) :=
  match rules with
  | [] => Ok matched_rules
  | rule :: rest =>
      m ← rule_matches rule facts;
      collect_matched rest facts
        (if m : bool then matched_rules ++ [rule] else matched_rules)
  end.

(** The scan of the builtin [max(iterable, key=...)]: an item replaces the
    current maximum only when its key is strictly greater. *)
Fixpoint max_scan {A : Type} (key : A -> Z) (maxitem : A) (items : list A) : A :=
  match items with
  | [] => maxitem
  | item :: rest =>
      if key item >? key maxitem then max_scan key item rest
      else max_scan key maxitem rest
  end.

Definition py_max {A : Type} (key : A -> Z) (items : list A) : res A :=
  match items with
  | [] => Raise ValueError
  | item :: rest => Ok (max_scan key item rest)
  end.

Definition rule_priority (r : Rule) : Z := get (priority r) 0.

Definition rule_name (r : Rule) : string := get (name r) "Unnamed rule".

Definition is_empty {A : Type} (l : list A) : bool :=
  match l with
  | [] => true
  | _ :: _ => false
  end.

Definition evaluate_applicant (facts : gmap string value) (rules : list Rule)
  : res Result :=
  matched ← collect_matched rules facts [];
  if is_empty matched then
    Ok {| decision := "REVIEW";
          reason := "No rules matched for this applicant. Rules may need review.";
          matched_rules := [];
          selected_rule := None |}
  else
    best_rule ← py_max rule_priority matched;
    let action := get (action best_rule) (mkAction None None) in
    Ok {| decision := get (act_decision action) "REVIEW";
          reason := get (act_reason action) "";
          matched_rules := map rule_name matched;
          selected_rule := Some (rule_name best_rule) |}.

(** ** The resolver on the object store

    Python passes [facts] and [rules] by reference: [rules] is a list
    object holding references to rule dictionaries, and [matched_rules] is
    a list object created by the call and extended in place by [append].
    Here the same function runs on a store of objects, so that what a call
    writes, and to which object, is explicit. *)

Definition loc : Type := positive.

Inductive obj : Type :=
  | ODict (d : gmap string value)
  | ORule (r : Rule)
  | OList (l : list loc).

(** A computation on the store ends with a value or an exception and a
    new store, or runs out of fuel. *)
Inductive outcome (A : Type) : Type :=
  | Done (r : res A) (h : gmap loc obj)
  | OutOfFuel.

Arguments Done {A} r h.
Arguments OutOfFuel {A}.

Record M (A : Type) : Type := mkM { run : gmap loc obj -> outcome A }.

Arguments mkM {A} run.
Arguments run {A} m h.

#[global] Instance M_ret : MRet M := fun A a => mkM (fun h => Done (Ok a) h).
#[global] Instance M_bind : MBind M := fun A B k m =>
  mkM (fun h =>
    match run m h with
    | Done (Ok a) h' => run (k a) h'
    | Done (Raise e) h' => Done (Raise e) h'
    | OutOfFuel => OutOfFuel
    end).

Definition lift {A : Type} (r : res A) : M A := mkM (fun h => Done r h).

Definition out_of_fuel {A : Type} : M A := mkM (fun _ => OutOfFuel).

(** A new object, at a location that holds nothing yet. *)
Definition alloc (o : obj) : M loc :=
  mkM (fun h => let l := fresh (dom h) in Done (Ok l) (<[l := o]> h)).

(** Reading through a reference; a dangling reference does not occur in
    Python and is reported as SystemError. *)
Definition load (l : loc) : M obj :=
  mkM (fun h =>
    match h !! l with
    | Some o => Done (Ok o) h
    | None => Done (Raise SystemError) h
    end).

Definition store (l : loc) (o : obj) : M unit :=
  mkM (fun h => Done (Ok tt) (<[l := o]> h)).

Definition load_list (l : loc) : M (list loc) :=
  o ← load l;
  match o with
  | OList refs => mret refs
  | _ => lift (Raise TypeError)
  end.

Definition load_dict (l : loc) : M (gmap string value) :=
  o ← load l;
  match o with
  | ODict d => mret d
  | _ => lift (Raise TypeError)
  end.

Definition load_rule (l : loc) : M Rule :=
  o ← load l;
  match o with
  | ORule r => mret r
  | _ => lift (Raise AttributeError)
  end.

(** [lst.append(x)]: the list object at [l] is updated in place. *)
Definition append (l : loc) (x : loc) : M unit :=
  refs ← load_list l;
  store l (OList (refs ++ [x])).

(** [rule_matches(rule, facts)] on references: it only reads. *)
Definition rule_matches_ref (rule_ref facts_ref : loc) : M bool :=
  rule ← load_rule rule_ref;
  facts ← load_dict facts_ref;
  lift (rule_matches rule facts).

(** [for rule in rules: ...]: the list iterator reads item [i] of the list
    object at each step and stops past its end. *)
Fixpoint for_rules (fuel : nat) (i : nat) (rules_ref facts_ref matched_ref : loc)
  : M unit :=
  match fuel with
  | O => out_of_fuel
  | S fuel' =>
      refs ← load_list rules_ref;
      match refs !! i with
      | None => mret tt
      | Some rule_ref =>
          m ← rule_matches_ref rule_ref facts_ref;
          _ ← (if m : bool then append matched_ref rule_ref else mret tt);
          for_rules fuel' (S i) rules_ref facts_ref matched_ref
      end
  end.

(** The rule dictionaries behind a list of references. *)
Fixpoint load_rules (refs : list loc) : M (list Rule) :=
  match refs with
  | [] => mret []
  | l :: rest =>
      r ← load_rule l;
      rs ← load_rules rest;
      mret (r :: rs)
  end.

Definition evaluate_applicant_ref (fuel : nat) (facts_ref rules_ref : loc)
  : M Result :=
  matched_ref ← alloc (OList []);
  _ ← for_rules fuel 0 rules_ref facts_ref matched_ref;
  matched_refs ← load_list matched_ref;
  if is_empty matched_refs then
    mret {| decision := "REVIEW";
            reason := "No rules matched for this applicant. Rules may need review.";
            matched_rules := [];
            selected_rule := None |}
  else
    matched ← load_rules matched_refs;
    best_rule ← lift (py_max rule_priority matched);
    let action := get (action best_rule) (mkAction None None) in
    mret {| decision := get (act_decision action) "REVIEW";
            reason := get (act_reason action) "";
            matched_rules := map rule_name matched;
            selected_rule := Some (rule_name best_rule) |}.

(** The store [h] holds the facts at [facts_ref] and, at [rules_ref], a
    list of references to the rules, in order. *)
Definition represents (h : gmap loc obj) (facts_ref rules_ref : loc)
    (facts : gmap string value) (rules : list Rule) : Prop :=
  h !! facts_ref = Some (ODict facts)
  /\ exists refs : list loc,
       h !! rules_ref = Some (OList refs)
       /\ Forall2 (fun l r => h !! l = Some (ORule r)) refs rules.

(** The references, among [refs], of the rules that match. *)
Fixpoint select_refs (facts : gmap string value) (refs : list loc)
    (rules : list Rule) : list loc :=
  match refs, rules with
  | l :: refs', r :: rules' =>
      if matches facts r then l :: select_refs facts refs' rules'
      else select_refs facts refs' rules'
  | _, _ => []
  end.

(** ** The default rule set

    [json.loads(DEFAULT_RULES_JSON)]: the five scholarship rules.  A JSON
    number with a fraction is parsed to the nearest binary64 float, one
    without to an int. *)

Definition cond (field op_str : string) (expected_value : value) : list value :=
  [VStr field; VStr op_str; expected_value].

Definition rule_top_merit : Rule :=
  {| name := Some "Top merit candidate";
     priority := Some 100;
     conditions := Some
       [ cond "cgpa" ">=" (VFloat 3.7);
         cond "co_curricular_score" ">=" (VInt 80);
         cond "family_income" "<=" (VInt 8000);
         cond "disciplinary_actions" "==" (VInt 0) ];
     action := Some
       {| act_decision := Some "AWARD_FULL";
          act_reason := Some
            "Excellent academic & co-curricular performance, with acceptable need" |} |}.

Definition rule_good_candidate : Rule :=
  {| name := Some "Good candidate - partial scholarship";
     priority := Some 80;
     conditions := Some
       [ cond "cgpa" ">=" (VFloat 3.3);
         cond "co_curricular_score" ">=" (VInt 60);
         cond "family_income" "<=" (VInt 12000);
         cond "disciplinary_actions" "<=" (VInt 1) ];
     action := Some
       {| act_decision := Some "AWARD_PARTIAL";
          act_reason := Some
            "Good academic & involvement record with moderate need" |} |}.

Definition rule_need_based : Rule :=
  {| name := Some "Need-based review";
     priority := Some 70;
     conditions := Some
       [ cond "cgpa" ">=" (VFloat 2.5);
         cond "family_income" "<=" (VInt 4000) ];
     action := Some
       {| act_decision := Some "REVIEW";
          act_reason := Some "High need but borderline academic score" |} |}.

Definition rule_low_cgpa : Rule :=
  {| name := Some "Low CGPA – not eligible";
     priority := Some 95;
     conditions := Some [ cond "cgpa" "<" (VFloat 2.5) ];
     action := Some
       {| act_decision := Some "REJECT";
          act_reason := Some "CGPA below minimum scholarship requirement" |} |}.

Definition rule_disciplinary : Rule :=
  {| name := Some "Serious disciplinary record";
     priority := Some 90;
     conditions := Some [ cond "disciplinary_actions" ">=" (VInt 2) ];
     action := Some
       {| act_decision := Some "REJECT";
          act_reason := Some "Too many disciplinary records" |} |}.

Definition DEFAULT_RULES : list Rule :=
  [ rule_top_merit; rule_good_candidate; rule_need_based;
    rule_low_cgpa; rule_disciplinary ].

(** ** Sample inputs *)

(** An applicant with strong results and no disciplinary record. *)
Definition applicant_merit : gmap string value :=
  {[ "cgpa" := VFloat 3.8; "co_curricular_score" := VInt 85;
     "family_income" := VInt 5000; "disciplinary_actions" := VInt 0 ]}.

(** An applicant with a low CGPA and three disciplinary actions. *)
Definition applicant_rejected : gmap string value :=
  {[ "cgpa" := VFloat 2.0; "disciplinary_actions" := VInt 3 ]}.

(** Two unconditional rules of equal priority. *)
Definition rule_first : Rule :=
  {| name := Some "first"; priority := Some 5; conditions := Some [];
     action := Some {| act_decision := Some "AWARD_FULL"; act_reason := None |} |}.

Definition rule_second : Rule :=
  {| name := Some "second"; priority := Some 5; conditions := None;
     action := Some {| act_decision := Some "REJECT"; act_reason := None |} |}.

(** A rule comparing a float fact with a string. *)
Definition rule_ill_typed : Rule :=
  {| name := None; priority := None;
     conditions := Some [ cond "cgpa" ">=" (VStr "high") ];
     action := None |}.

(** A store with the rejected applicant at 1, the list of the default
    rules at 2 and the five rules at 3 to 7. *)
Definition sample_store : gmap loc obj :=
  {[ 1%positive := ODict applicant_rejected;
     2%positive := OList [3; 4; 5; 6; 7]%positive;
     3%positive := ORule rule_top_merit;
     4%positive := ORule rule_good_candidate;
     5%positive := ORule rule_need_based;
     6%positive := ORule rule_low_cgpa;
     7%positive := ORule rule_disciplinary ]}.

(** ** Conditions that hold *)

(** A condition holds when it is a triple whose field is a key of the
    facts, whose operator is a key of [OPERATORS], and whose comparison
    returns [True]. *)
Definition cond_holds (facts : gmap string value) (c : list value) : Prop :=
  exists field op_str expected actual op_func,
    c = [field; op_str; expected]
    /\ facts_get facts field = Some actual
    /\ OPERATORS_get op_str = Some op_func
    /\ apply_op op_func actual expected = Ok true.

(** ** The condition evaluator on any JSON rule

    The rule editor accepts any JSON list, so a rule object may hold
    anything under "conditions".  [json] is a parsed JSON value; an object
    is the list of its items in insertion order, with distinct keys.
    [rule_matches_json] is [rule_matches] on such a rule: every operation
    outside the [try] can raise here. *)

#[warnings="-register-all"]
Inductive json : Type :=
  | JScalar (v : value)
  | JList (items : list json)
  | JDict (items : list (string * json)).

(** [d.get(key)] on an object. *)
Fixpoint json_get (d : list (string * json)) (key : string) : option json :=
  match d with
  | [] => None
  | (k, v) :: rest => if String.eqb k key then Some v else json_get rest key
  end.

(** A byte that continues a UTF-8 sequence. *)
Definition is_continuation (a : ascii) : bool :=
  let n := N_of_ascii a in (128 <=? n)%N && (n <? 192)%N.

(** The characters of a string, each a one-character string. *)
Fixpoint characters (s : string) : list string :=
  match s with
  | EmptyString => []
  | String a rest =>
      let cs := characters rest in
      match rest with
      | EmptyString => String a EmptyString :: cs
      | String b _ =>
          if is_continuation b then
            match cs with
            | c :: cs' => String a c :: cs'
            | [] => [String a EmptyString]
            end
          else String a EmptyString :: cs
      end
  end.

(** [iter(x)]: the items of a list, the keys of an object, the characters
    of a string; nothing else is iterable. *)
Definition py_iter (x : json) : res (list json) :=
  match x with
  | JList items => Ok items
  | JDict items => Ok (map (fun kv => JScalar (VStr (fst kv))) items)
  | JScalar (VStr s) => Ok (map (fun c => JScalar (VStr c)) (characters s))
  | JScalar _ => Raise TypeError
  end.

(** [len(x)] *)
Definition py_len (x : json) : res nat :=
  match x with
  | JList items => Ok (length items)
  | JDict items => Ok (length items)
  | JScalar (VStr s) => Ok (length (characters s))
  | JScalar _ => Raise TypeError
  end.

(** [a, b, c = x] *)
Definition unpack3_json (x : json) : res (json * json * json) :=
  items ← py_iter x;
  match items with
  | [a; b; c] => Ok (a, b, c)
  | _ => Raise ValueError
  end.

(** [hash(x)], needed for a dictionary key: lists and objects are
    unhashable. *)
Definition py_hash (x : json) : res value :=
  match x with
  | JScalar v => Ok v
  | JList _ | JDict _ => Raise TypeError
  end.

(** [field in facts] *)
Definition contains_json (facts : gmap string value) (field : json) : res bool :=
  key ← py_hash field;
  Ok (contains facts key).

(** [facts[field]] *)
Definition getitem_json (facts : gmap string value) (field : json) : res value :=
  key ← py_hash field;
  getitem facts key.

(** [OPERATORS.get(op_str)] *)
Definition OPERATORS_get_json (op_str : json) : res (option op) :=
  key ← py_hash op_str;
  Ok (OPERATORS_get key).

(** [op_func(actual, expected)] for a scalar fact: a list or an object is
    unequal to any scalar and cannot be ordered with one. *)
Definition apply_op_json (o : op) (actual : value) (expected : json) : res bool :=
  match expected with
  | JScalar e => apply_op o actual e
  | JList _ | JDict _ =>
      match o with
      | Eq_ => Ok false
      | _ => Raise TypeError
      end
  end.

(** One iteration of the loop body, as [check_cond]. *)
Definition check_cond_json (cond : json) (facts : gmap string value) : res bool :=
  n ← py_len cond;
  if negb (Nat.eqb n 3) then Ok false
  else
    '(field, op_str, expected_value) ← unpack3_json cond;
    present ← contains_json facts field;
    if negb present then Ok false
    else
      actual_value ← getitem_json facts field;
      found ← OPERATORS_get_json op_str;
      match found with
      | None => Ok false
      | Some op_func =>
          try_except
            (b ← apply_op_json op_func actual_value expected_value;
             if negb b then Ok false else Ok true)
            (Ok false)
      end.

Fixpoint rule_matches_json_loop (conds : list json) (facts : gmap string value)
  : res bool :=
  match conds with
  | [] => Ok true
  | cond :: rest =>
      continue ← check_cond_json cond facts;
      if continue : bool then rule_matches_json_loop rest facts else Ok false
  end.

Definition rule_matches_json (rule : list (string * json))
    (facts : gmap string value) : res bool :=
  conds ← py_iter (get (json_get rule "conditions") (JList []));
  rule_matches_json_loop conds facts.

(** A condition, and a sequence of conditions, of scalars as JSON. *)
Definition cond_json (c : list value) : json := JList (map JScalar c).

Definition conds_json (conds : list (list value)) : json :=
  JList (map cond_json conds).

(** Rule objects with conditions that are not lists of scalars. *)
Definition rule_unsized_condition : list (string * json) :=
  [ ("name", JScalar (VStr "unsized"));
    ("conditions",
      JList [ JScalar (VInt 5);
              JList [ JScalar (VStr "cgpa"); JScalar (VStr ">=") ] ]) ].

Definition rule_short_then_unsized : list (string * json) :=
  [ ("conditions",
      JList [ JList [ JScalar (VStr "cgpa"); JScalar (VStr ">=") ];
              JScalar (VInt 5) ]) ].

Definition rule_unhashable_field : list (string * json) :=
  [ ("conditions",
      JList [ JList [ JList [ JScalar (VStr "cgpa") ];
                      JScalar (VStr "!="); JScalar (VFloat 3.7) ] ]) ].

Definition rule_unhashable_operator : list (string * json) :=
  [ ("conditions",
      JList [ JList [ JScalar (VStr "cgpa");
                      JList [ JScalar (VStr ">=") ]; JScalar (VFloat 3.7) ] ]) ].

Definition rule_null_conditions : list (string * json) :=
  [ ("conditions", JScalar VNone) ].

(** The need-based rule and its reordering as rule objects. *)
Definition rule_need_object : list (string * json) :=
  [ ("name", JScalar (VStr "Need-based review"));
    ("priority", JScalar (VInt 70));
    ("conditions",
      conds_json [ cond "cgpa" ">=" (VFloat 2.5);
                   cond "family_income" "<=" (VInt 4000) ]) ].

Definition rule_need_swapped_object : list (string * json) :=
  [ ("name", JScalar (VStr "Need-based review"));
    ("priority", JScalar (VInt 70));
    ("conditions",
      conds_json [ cond "family_income" "<=" (VInt 4000);
                   cond "cgpa" ">=" (VFloat 2.5) ]) ].

(** ** The form and the report of [main]

    [applicant_facts] takes the six values as converted by [main]:
    [float(cgpa)] and [float(family_income)] are floats and the four
    [int(...)] are ints, whatever the widgets returned. *)

Definition applicant_facts (cgpa family_income : float)
    (co_curricular_score community_service_hours current_semester
       disciplinary_actions : Z) : gmap string value :=
  {[ "cgpa" := VFloat cgpa;
     "family_income" := VFloat family_income;
     "co_curricular_score" := VInt co_curricular_score;
     "community_service_hours" := VInt community_service_hours;
     "current_semester" := VInt current_semester;
     "disciplinary_actions" := VInt disciplinary_actions ]}.

(** The calls to streamlit that write to the page. *)
Inductive st_call : Type :=
  | StSubheader (body : string)
  | StSuccess (body : string)
  | StWarning (body : string)
  | StError (body : string)
  | StInfo (body : string)
  | StMarkdown (body : string)
  | StWrite (body : string)
  | StJson (body : gmap string value).

(** The [if decision == ...] chain of [main]. *)
Definition decision_banner (decision : string) : st_call :=
  if String.eqb decision "AWARD_FULL" then StSuccess "✅ Decision: AWARD_FULL"
  else if String.eqb decision "AWARD_PARTIAL" then
    StSuccess "✅ Decision: AWARD_PARTIAL"
  else if String.eqb decision "REVIEW" then StWarning "⚠️ Decision: REVIEW"
  else if String.eqb decision "REJECT" then StError "❌ Decision: REJECT"
  else StInfo ("ℹ️ Decision: " ++ decision).

(** The four decisions with a banner of their own. *)
Definition known_decision (d : string) : Prop :=
  d = "AWARD_FULL" \/ d = "AWARD_PARTIAL" \/ d = "REVIEW" \/ d = "REJECT".

(** [f"{x}"] for a string or [None]. *)
Definition format_optional (x : option string) : string :=
  match x with
  | Some s => s
  | None => "None"
  end.

(** What [main] writes once [evaluate_applicant] has returned [result]. *)
Definition show_result (result : Result) (applicant_facts : gmap string value)
  : list st_call :=
  [ StSubheader "Decision";
    decision_banner (decision result);
    StMarkdown ("**Reason:** " ++ reason result);
    StMarkdown "### Rule engine details";
    StWrite ("**Selected rule (highest priority match):** "
             ++ format_optional (selected_rule result));
    StWrite "**All matched rules:**" ]
  ++ (if is_empty (matched_rules result) then [StWrite "- (No rules matched)"]
      else map (fun rname => StWrite ("- " ++ rname)) (matched_rules result))
  ++ [ StMarkdown "### Applicant facts used";
       StJson applicant_facts ].

(** ** Further sample inputs *)

(** The two conditions of the need-based rule, one rule each, and the
    need-based rule with its conditions in the other order. *)
Definition rule_cgpa_floor : Rule :=
  {| name := None; priority := None;
     conditions := Some [ cond "cgpa" ">=" (VFloat 2.5) ];
     action := None |}.

Definition rule_income_cap : Rule :=
  {| name := None; priority := None;
     conditions := Some [ cond "family_income" "<=" (VInt 4000) ];
     action := None |}.

Definition rule_need_swapped : Rule :=
  {| name := Some "Need-based review";
     priority := Some 70;
     conditions := Some
       [ cond "family_income" "<=" (VInt 4000);
         cond "cgpa" ">=" (VFloat 2.5) ];
     action := Some
       {| act_decision := Some "REVIEW";
          act_reason := Some "High need but borderline academic score" |} |}.

(** The merit applicant with another co-curricular score. *)
Definition applicant_merit_idle : gmap string value :=
  <[ "co_curricular_score" := VInt 0 ]> applicant_merit.

(** ** The comparison of scalars on examples *)

Example ge_float_holds : apply_op Ge (VFloat 3.8) (VFloat 3.7) = Ok true.
Proof. reflexivity. Qed.

Example ge_float_fails : apply_op Ge (VFloat 3.6) (VFloat 3.7) = Ok false.
Proof. reflexivity. Qed.

Example le_int_float : apply_op Le (VInt 5000) (VFloat 8000.5) = Ok true.
Proof. reflexivity. Qed.

(** 2^53 + 1 is not a float: the comparison with 2^53 as a float is exact. *)
Example gt_int_float_exact :
  apply_op Gt_ (VInt 9007199254740993) (VFloat 9007199254740992) = Ok true.
Proof. reflexivity. Qed.

Example eq_int_float : apply_op Eq_ (VInt 0) (VFloat 0) = Ok true.
Proof. reflexivity. Qed.

Example eq_bool_int : apply_op Eq_ (VBool true) (VInt 1) = Ok true.
Proof. reflexivity. Qed.

Example eq_nan : apply_op Eq_ (VFloat nan) (VFloat nan) = Ok false.
Proof. reflexivity. Qed.

Example eq_str_int : apply_op Eq_ (VStr "3") (VInt 3) = Ok false.
Proof. reflexivity. Qed.

Example lt_str_str : apply_op Lt_ (VStr "abc") (VStr "abd") = Ok true.
Proof. reflexivity. Qed.

Example lt_str_int_raises : apply_op Lt_ (VStr "3") (VInt 3) = Raise TypeError.
Proof. reflexivity. Qed.

Example ge_none_raises : apply_op Ge VNone VNone = Raise TypeError.
Proof. reflexivity. Qed.

(** ** Properties of the condition evaluator *)

Section ConditionEvaluator.

Variable facts : gmap string value.

Lemma unpack3_length (c : list value) :
  length c = 3%nat -> exists f o e, c = [f; o; e].
Proof.
  destruct c as [|f [|o [|e [|x c]]]]; simpl; try discriminate.
  intros _. exists f, o, e. reflexivity.
Qed.

(** The body of the loop on a three-element condition whose field is
    present and whose operator is supported: the comparison decides, and
    an exception it raises is caught. *)
Lemma check_cond_triple (field op_str expected actual : value) (op_func : op) :
  facts_get facts field = Some actual ->
  OPERATORS_get op_str = Some op_func ->
  check_cond [field; op_str; expected] facts =
    match apply_op op_func actual expected with
    | Ok b => Ok b
    | Raise _ => Ok false
    end.
Proof.
  intros Hf Ho. unfold check_cond, contains, getitem. simpl.
  rewrite Hf. simpl. rewrite Ho.
  destruct (apply_op op_func actual expected) as [[|]|e]; reflexivity.
Qed.

Lemma check_cond_total (c : list value) : exists b, check_cond c facts = Ok b.
Proof.
  destruct (Nat.eq_dec (length c) 3%nat) as [Hlen|Hlen].
  - destruct (unpack3_length c Hlen) as (f & o & e & ->).
    destruct (facts_get facts f) as [a|] eqn:Hf.
    + destruct (OPERATORS_get o) as [op_func|] eqn:Ho.
      * rewrite (check_cond_triple f o e a op_func Hf Ho).
        destruct (apply_op op_func a e); eauto.
      * exists false. unfold check_cond, contains, getitem. simpl.
        rewrite Hf. simpl. rewrite Ho. reflexivity.
    + exists false. unfold check_cond, contains. simpl. rewrite Hf. reflexivity.
  - exists false. unfold check_cond.
    destruct (Nat.eqb_spec (length c) 3%nat); [contradiction | reflexivity].
Qed.

Lemma rule_matches_loop_total (conds : list (list value)) :
  exists b, rule_matches_loop conds facts = Ok b.
Proof.
  induction conds as [|c conds IH]; simpl; [eauto|].
  destruct (check_cond_total c) as [[|] ->]; simpl; eauto.
Qed.

Lemma rule_matches_total (rule : Rule) : exists b, rule_matches rule facts = Ok b.
Proof. apply rule_matches_loop_total. Qed.

Lemma matches_true (rule : Rule) :
  matches facts rule = true <-> rule_matches rule facts = Ok true.
Proof.
  unfold matches. destruct (rule_matches rule facts) as [[|]|e]; split;
    intros H; try reflexivity; discriminate.
Qed.

Lemma rule_matches_matches (rule : Rule) :
  rule_matches rule facts = Ok (matches facts rule).
Proof.
  unfold matches. destruct (rule_matches_total rule) as [[|] ->]; reflexivity.
Qed.

(** A condition on which the loop body returns [False] makes the whole
    rule fail, wherever it stands in the sequence. *)
Lemma rule_matches_loop_false (conds : list (list value)) (c : list value) :
  In c conds -> check_cond c facts = Ok false ->
  rule_matches_loop conds facts = Ok false.
Proof.
  induction conds as [|c' conds IH]; simpl; [contradiction|].
  intros [->|Hin] Hc.
  - rewrite Hc. reflexivity.
  - destruct (check_cond_total c') as [[|] ->]; simpl; auto.
Qed.

End ConditionEvaluator.

Lemma OPERATORS_get_unknown (op_str : value) :
  ~ In op_str operator_symbols -> OPERATORS_get op_str = None.
Proof.
  intros Hnot. destruct op_str as [| | | |s]; try reflexivity.
  simpl. unfold OPERATORS.
  assert (Hne : forall t, In (VStr t) operator_symbols -> t <> s).
  { intros t Ht <-. exact (Hnot Ht). }
  rewrite !lookup_insert_ne by (apply Hne; simpl; tauto).
  apply lookup_singleton_ne. apply Hne; simpl; tauto.
Qed.

Lemma OPERATORS_get_known (op_str : value) :
  In op_str operator_symbols -> exists op_func, OPERATORS_get op_str = Some op_func.
Proof.
  unfold operator_symbols. simpl.
  intros [<-|[<-|[<-|[<-|[<-|[]]]]]]; eexists; reflexivity.
Qed.

Lemma check_cond_arity (facts : gmap string value) (c : list value) :
  length c <> 3%nat -> check_cond c facts = Ok false.
Proof.
  intros Hlen. unfold check_cond.
  destruct (Nat.eqb_spec (length c) 3%nat); [contradiction | reflexivity].
Qed.

Lemma check_cond_missing (facts : gmap string value) (field op_str expected : value) :
  facts_get facts field = None ->
  check_cond [field; op_str; expected] facts = Ok false.
Proof.
  intros Hf. unfold check_cond, contains. simpl. rewrite Hf. reflexivity.
Qed.

Lemma check_cond_unknown (facts : gmap string value) (field op_str expected : value) :
  OPERATORS_get op_str = None ->
  check_cond [field; op_str; expected] facts = Ok false.
Proof.
  intros Ho. destruct (facts_get facts field) as [a|] eqn:Hf.
  - unfold check_cond, contains, getitem. simpl. rewrite Hf. simpl.
    rewrite Ho. reflexivity.
  - apply check_cond_missing, Hf.
Qed.

(** On conditions that are lists of scalars, a rule fails to match,
    without raising, as soon as one of its conditions does not have exactly
    three elements, or has an operator that is not one of the five symbols,
    or names a field that is not a key of the facts. *)
Lemma rule_matches_scalar_conditions_malformed
    (rule : Rule) (facts : gmap string value) (c : list value) :
  In c (get (conditions rule) []) ->
  length c <> 3%nat
  \/ (exists field op_str expected,
        c = [field; op_str; expected] /\ ~ In op_str operator_symbols)
  \/ (exists s op_str expected,
        c = [VStr s; op_str; expected] /\ facts !! s = None) ->
  rule_matches rule facts = Ok false.
Proof.
  intros Hin Hbad. unfold rule_matches.
  apply (rule_matches_loop_false facts _ c Hin).
  destruct Hbad as [Hlen | [(f & o & e & -> & Ho) | (s & o & e & -> & Hs)]].
  - apply check_cond_arity, Hlen.
  - apply check_cond_unknown, OPERATORS_get_unknown, Ho.
  - apply check_cond_missing. exact Hs.
Qed.

(** C7: when the comparison of a condition raises, whatever the exception,
    the rule fails to match and nothing is propagated. *)
Theorem rule_matches_comparison_error
    (rule : Rule) (facts : gmap string value)
    (field op_str expected actual : value) (op_func : op) (e : exn) :
  In [field; op_str; expected] (get (conditions rule) []) ->
  facts_get facts field = Some actual ->
  OPERATORS_get op_str = Some op_func ->
  apply_op op_func actual expected = Raise e ->
  rule_matches rule facts = Ok false.
Proof.
  intros Hin Hf Ho Hraise. unfold rule_matches.
  apply (rule_matches_loop_false facts _ _ Hin).
  rewrite (check_cond_triple facts _ _ _ _ _ Hf Ho), Hraise. reflexivity.
Qed.

Lemma rule_matches_comparison_error_witness :
  apply_op Ge (VFloat 3.8) (VStr "high") = Raise TypeError
  /\ rule_matches rule_ill_typed applicant_merit = Ok false.
Proof.
  split; [reflexivity|].
  apply (rule_matches_comparison_error rule_ill_typed applicant_merit
           (VStr "cgpa") (VStr ">=") (VStr "high") (VFloat 3.8) Ge TypeError).
  - simpl. auto.
  - reflexivity.
  - reflexivity.
  - reflexivity.
Defined.

(** C8: a rule with an empty sequence of conditions matches any facts. *)
Theorem rule_matches_empty_conditions (rule : Rule) (facts : gmap string value) :
  conditions rule = Some [] -> rule_matches rule facts = Ok true.
Proof. intros H. unfold rule_matches. rewrite H. reflexivity. Qed.

Lemma rule_matches_empty_conditions_witness :
  rule_matches rule_first applicant_merit = Ok true.
Proof.
  apply (rule_matches_empty_conditions rule_first applicant_merit). reflexivity.
Defined.

(** C10: a rule without the "conditions" key is evaluated as the same rule
    with an empty sequence of conditions, and matches any facts. *)
Theorem rule_matches_no_conditions_key (rule : Rule) (facts : gmap string value) :
  conditions rule = None ->
  rule_matches rule facts =
    rule_matches
      {| name := name rule; priority := priority rule;
         conditions := Some []; action := action rule |} facts
  /\ rule_matches rule facts = Ok true.
Proof. intros H. unfold rule_matches. rewrite H. split; reflexivity. Qed.

Lemma rule_matches_no_conditions_key_witness :
  rule_matches rule_second applicant_merit =
    rule_matches
      {| name := name rule_second; priority := priority rule_second;
         conditions := Some []; action := action rule_second |} applicant_merit
  /\ rule_matches rule_second applicant_merit = Ok true.
Proof.
  apply (rule_matches_no_conditions_key rule_second applicant_merit). reflexivity.
Defined.

(** ** Properties of the decision resolver *)

Section MaxScan.

Context {A : Type} (key : A -> Z).

Lemma max_scan_In (m : A) (items : list A) :
  In (max_scan key m items) (m :: items).
Proof.
  revert m. induction items as [|x items IH]; intros m; simpl; [auto|].
  destruct (key x >? key m).
  - destruct (IH x) as [<-|Hin]; auto.
  - destruct (IH m) as [<-|Hin]; auto.
Qed.

Lemma max_scan_ge_init (m : A) (items : list A) :
  key m <= key (max_scan key m items).
Proof.
  revert m. induction items as [|y items IH]; intros m; simpl; [lia|].
  destruct (Z.gtb_spec (key y) (key m)) as [Hgt|Hle]; [|apply IH].
  specialize (IH y). lia.
Qed.

Lemma max_scan_ge (m : A) (items : list A) (x : A) :
  In x (m :: items) -> key x <= key (max_scan key m items).
Proof.
  intros [<-|Hin]; [apply max_scan_ge_init|].
  revert m. induction items as [|y items IH]; intros m; [contradiction|].
  simpl. destruct Hin as [->|Hin].
  - destruct (Z.gtb_spec (key x) (key m)) as [Hgt|Hle];
      [apply max_scan_ge_init|].
    pose proof (max_scan_ge_init m items). lia.
  - destruct (key y >? key m); apply IH, Hin.
Qed.

(** The current maximum stays when nothing later is strictly greater. *)
Lemma max_scan_keep (m : A) (items : list A) :
  (forall x, In x items -> key x <= key m) -> max_scan key m items = m.
Proof.
  induction items as [|y items IH]; intros Hle; simpl; [reflexivity|].
  destruct (Z.gtb_spec (key y) (key m)) as [Hgt|_].
  - specialize (Hle y (or_introl eq_refl)). lia.
  - apply IH. intros x Hx. apply Hle. right. exact Hx.
Qed.

(** The scan stops on the first item that is strictly above everything
    before it and not below anything after it. *)
Lemma max_scan_first (m : A) (l1 : list A) (w : A) (l2 : list A) :
  key m < key w ->
  (forall x, In x l1 -> key x < key w) ->
  (forall x, In x l2 -> key x <= key w) ->
  max_scan key m (l1 ++ w :: l2) = w.
Proof.
  revert m. induction l1 as [|y l1 IH]; intros m Hm H1 H2; simpl.
  - destruct (Z.gtb_spec (key w) (key m)) as [_|Hle]; [|lia].
    apply max_scan_keep, H2.
  - assert (Hy : key y < key w) by (apply H1; left; reflexivity).
    assert (H1' : forall x, In x l1 -> key x < key w)
      by (intros x Hx; apply H1; right; exact Hx).
    destruct (key y >? key m); apply IH; assumption.
Qed.

Lemma py_max_first (l1 : list A) (w : A) (l2 : list A) :
  (forall x, In x l1 -> key x < key w) ->
  (forall x, In x l2 -> key x <= key w) ->
  py_max key (l1 ++ w :: l2) = Ok w.
Proof.
  intros H1 H2. destruct l1 as [|m l1]; simpl; f_equal.
  - apply max_scan_keep, H2.
  - apply max_scan_first; [apply H1; left; reflexivity | | exact H2].
    intros x Hx. apply H1. right. exact Hx.
Qed.

End MaxScan.

Section DecisionResolver.

Variable facts : gmap string value.

(** The loop appends to [matched_rules], in order, the rules that match. *)
Lemma collect_matched_filter (rules acc : list Rule) :
  collect_matched rules facts acc = Ok (acc ++ List.filter (matches facts) rules)%list.
Proof.
  revert acc. induction rules as [|r rules IH]; intros acc; simpl.
  - rewrite app_nil_r. reflexivity.
  - rewrite rule_matches_matches. simpl.
    destruct (matches facts r); rewrite IH; [|reflexivity].
    rewrite <- app_assoc. reflexivity.
Qed.

Lemma evaluate_applicant_no_match (rules : list Rule) :
  List.filter (matches facts) rules = [] ->
  evaluate_applicant facts rules =
    Ok {| decision := "REVIEW";
          reason := "No rules matched for this applicant. Rules may need review.";
          matched_rules := [];
          selected_rule := None |}.
Proof.
  intros Hnone. unfold evaluate_applicant.
  rewrite collect_matched_filter, Hnone. reflexivity.
Qed.

Lemma evaluate_applicant_match (rules : list Rule) (m : Rule) (rest : list Rule) :
  List.filter (matches facts) rules = m :: rest ->
  evaluate_applicant facts rules =
    let best_rule := max_scan rule_priority m rest in
    let action := get (action best_rule) (mkAction None None) in
    Ok {| decision := get (act_decision action) "REVIEW";
          reason := get (act_reason action) "";
          matched_rules := map rule_name (m :: rest);
          selected_rule := Some (rule_name best_rule) |}.
Proof.
  intros Hsome. unfold evaluate_applicant.
  rewrite collect_matched_filter, Hsome. reflexivity.
Qed.

Lemma filter_matches_In (rules : list Rule) (r : Rule) :
  In r (List.filter (matches facts) rules) <->
  In r rules /\ rule_matches r facts = Ok true.
Proof. rewrite filter_In, matches_true. reflexivity. Qed.

End DecisionResolver.

(** C1: when at least one rule matches, the result names a matched rule of
    maximum priority, takes its decision and reason from that rule's action
    (with the defaults "REVIEW" and the empty string), and lists the names
    of all matched rules in the order of the rule set. *)
Theorem evaluate_applicant_selects_max
    (facts : gmap string value) (rules : list Rule) :
  (exists r, In r rules /\ rule_matches r facts = Ok true) ->
  exists (w : Rule) (result : Result),
    evaluate_applicant facts rules = Ok result
    /\ In w rules
    /\ rule_matches w facts = Ok true
    /\ (forall r, In r rules -> rule_matches r facts = Ok true ->
          rule_priority r <= rule_priority w)
    /\ selected_rule result = Some (rule_name w)
    /\ decision result =
         get (act_decision (get (action w) (mkAction None None))) "REVIEW"
    /\ reason result =
         get (act_reason (get (action w) (mkAction None None))) ""
    /\ matched_rules result = map rule_name (List.filter (matches facts) rules).
Proof.
  intros (r & Hr & Hm).
  destruct (List.filter (matches facts) rules) as [|m rest] eqn:Hfilter.
  - exfalso. assert (Hin : In r (List.filter (matches facts) rules))
      by (apply filter_matches_In; split; assumption).
    rewrite Hfilter in Hin. exact Hin.
  - pose proof (max_scan_In rule_priority m rest) as Hin.
    rewrite <- Hfilter in Hin. apply filter_matches_In in Hin as [Hw Hwm].
    exists (max_scan rule_priority m rest). eexists.
    split; [apply (evaluate_applicant_match facts rules m rest Hfilter)|].
    cbn [selected_rule decision reason matched_rules].
    repeat split; try assumption.
    intros x Hx Hxm. apply max_scan_ge. rewrite <- Hfilter.
    apply filter_matches_In. split; assumption.
Qed.

Lemma evaluate_applicant_selects_max_witness :
  exists (w : Rule) (result : Result),
    evaluate_applicant applicant_merit DEFAULT_RULES = Ok result
    /\ In w DEFAULT_RULES
    /\ rule_matches w applicant_merit = Ok true
    /\ (forall r, In r DEFAULT_RULES -> rule_matches r applicant_merit = Ok true ->
          rule_priority r <= rule_priority w)
    /\ selected_rule result = Some (rule_name w)
    /\ decision result =
         get (act_decision (get (action w) (mkAction None None))) "REVIEW"
    /\ reason result =
         get (act_reason (get (action w) (mkAction None None))) ""
    /\ matched_rules result =
         map rule_name (List.filter (matches applicant_merit) DEFAULT_RULES).
Proof.
  apply (evaluate_applicant_selects_max applicant_merit DEFAULT_RULES).
  exists rule_top_merit. split; [simpl; auto | vm_compute; reflexivity].
Defined.

(** C2, as stated: with no matching rule the reason would be the text
    "no rules matched — may need review".  The program uses another text. *)
Lemma spec_reason_text_refuted :
  ~ (forall (facts : gmap string value) (rules : list Rule),
       (forall r, In r rules -> rule_matches r facts <> Ok true) ->
       evaluate_applicant facts rules =
         Ok {| decision := "REVIEW";
               reason := "no rules matched — may need review";
               matched_rules := [];
               selected_rule := None |}).
Proof.
  intros H. specialize (H ∅ [] (fun r (Hin : In r []) => match Hin with end)).
  vm_compute in H. discriminate H.
Qed.

(** C2, amended: when no rule matches, the result is the decision "REVIEW"
    with the reason "No rules matched for this applicant. Rules may need
    review.", no matched rule names and no selected rule. *)
Theorem evaluate_applicant_none_matched
    (facts : gmap string value) (rules : list Rule) :
  (forall r, In r rules -> rule_matches r facts <> Ok true) ->
  evaluate_applicant facts rules =
    Ok {| decision := "REVIEW";
          reason := "No rules matched for this applicant. Rules may need review.";
          matched_rules := [];
          selected_rule := None |}.
Proof.
  intros Hnone. apply evaluate_applicant_no_match.
  destruct (List.filter (matches facts) rules) as [|m rest] eqn:Hfilter;
    [reflexivity|].
  exfalso. assert (Hin : In m (List.filter (matches facts) rules))
    by (rewrite Hfilter; left; reflexivity).
  apply filter_matches_In in Hin as [Hin Hm]. exact (Hnone m Hin Hm).
Qed.

Lemma evaluate_applicant_none_matched_witness :
  evaluate_applicant ∅ DEFAULT_RULES =
    Ok {| decision := "REVIEW";
          reason := "No rules matched for this applicant. Rules may need review.";
          matched_rules := [];
          selected_rule := None |}.
Proof.
  apply (evaluate_applicant_none_matched ∅ DEFAULT_RULES).
  intros r Hin.
  repeat (destruct Hin as [<-|Hin]; [vm_compute; discriminate|]).
  destruct Hin.
Defined.

(** C3: the selected rule is the first matched rule of maximum priority in
    the order of the rule set: a matched rule [w] that is strictly above
    every matched rule before it and not below any matched rule after it
    wins, whatever ties it has with later rules.  The selection is a
    function of the facts and the rule set. *)
Theorem evaluate_applicant_first_of_ties
    (facts : gmap string value) (l1 : list Rule) (w : Rule) (l2 : list Rule) :
  rule_matches w facts = Ok true ->
  (forall r, In r l1 -> rule_matches r facts = Ok true ->
     rule_priority r < rule_priority w) ->
  (forall r, In r l2 -> rule_matches r facts = Ok true ->
     rule_priority r <= rule_priority w) ->
  exists result : Result,
    evaluate_applicant facts (l1 ++ w :: l2) = Ok result
    /\ selected_rule result = Some (rule_name w)
    /\ decision result =
         get (act_decision (get (action w) (mkAction None None))) "REVIEW"
    /\ reason result =
         get (act_reason (get (action w) (mkAction None None))) "".
Proof.
  intros Hw H1 H2.
  assert (Hfilter : List.filter (matches facts) (l1 ++ w :: l2) =
            (List.filter (matches facts) l1 ++
             w :: List.filter (matches facts) l2)%list).
  { rewrite List.filter_app. simpl.
    apply matches_true in Hw. rewrite Hw. reflexivity. }
  assert (Hbest : py_max rule_priority (List.filter (matches facts) (l1 ++ w :: l2))
            = Ok w).
  { rewrite Hfilter. apply py_max_first; intros x Hx;
      apply filter_matches_In in Hx as [Hx Hxm]; auto. }
  destruct (List.filter (matches facts) (l1 ++ w :: l2)) as [|m rest] eqn:E;
    [discriminate Hbest|].
  injection Hbest as Hbest.
  eexists. split; [apply (evaluate_applicant_match facts _ m rest E)|].
  cbn [selected_rule decision reason]. rewrite Hbest. auto.
Qed.

Lemma evaluate_applicant_first_of_ties_witness :
  exists result : Result,
    evaluate_applicant ∅ ([] ++ rule_first :: [rule_second]) = Ok result
    /\ selected_rule result = Some (rule_name rule_first)
    /\ decision result =
         get (act_decision (get (action rule_first) (mkAction None None))) "REVIEW"
    /\ reason result =
         get (act_reason (get (action rule_first) (mkAction None None))) "".
Proof.
  apply (evaluate_applicant_first_of_ties ∅ [] rule_first [rule_second]).
  - reflexivity.
  - intros r [].
  - intros r [<-|[]] _. vm_compute. discriminate.
Defined.

(** ** The default rule set on sample applicants *)

(** C4, as stated: the merit applicant would match "Top merit candidate"
    and no other rule.  The partial-scholarship rule matches as well. *)
Lemma default_rules_merit_not_single_match :
  ~ (exists result : Result,
       evaluate_applicant applicant_merit DEFAULT_RULES = Ok result
       /\ matched_rules result = ["Top merit candidate"]
       /\ selected_rule result = Some "Top merit candidate"
       /\ decision result = "AWARD_FULL").
Proof.
  intros (result & Heval & Hmatched & _).
  vm_compute in Heval. injection Heval as <-. discriminate Hmatched.
Qed.

(** C4, amended: on the merit applicant the default rules match "Top merit
    candidate" and "Good candidate - partial scholarship", in this order,
    and no other rule; the selected rule is "Top merit candidate" and the
    decision is "AWARD_FULL". *)
Theorem default_rules_merit_applicant :
  rule_matches rule_top_merit applicant_merit = Ok true
  /\ rule_matches rule_good_candidate applicant_merit = Ok true
  /\ rule_matches rule_need_based applicant_merit = Ok false
  /\ rule_matches rule_low_cgpa applicant_merit = Ok false
  /\ rule_matches rule_disciplinary applicant_merit = Ok false
  /\ exists result : Result,
       evaluate_applicant applicant_merit DEFAULT_RULES = Ok result
       /\ matched_rules result =
            ["Top merit candidate"; "Good candidate - partial scholarship"]
       /\ selected_rule result = Some "Top merit candidate"
       /\ decision result = "AWARD_FULL".
Proof.
  repeat (split; [vm_compute; reflexivity|]).
  eexists. split; [vm_compute; reflexivity|].
  repeat split.
Qed.

Section Rejection.

Variable facts : gmap string value.
Hypothesis Hcgpa : facts !! "cgpa" = Some (VFloat 2.0).
Hypothesis Hdisc : facts !! "disciplinary_actions" = Some (VInt 3).

(** A rule whose first condition compares the CGPA and fails. *)
Lemma rule_matches_cgpa_fails (rule : Rule) (op_str : string) (op_func : op)
    (expected : value) (rest : list (list value)) :
  conditions rule = Some (cond "cgpa" op_str expected :: rest) ->
  OPERATORS !! op_str = Some op_func ->
  apply_op op_func (VFloat 2.0) expected = Ok false ->
  rule_matches rule facts = Ok false.
Proof.
  intros Hc Ho Hcmp. unfold rule_matches. rewrite Hc.
  apply (rule_matches_loop_false facts _ (cond "cgpa" op_str expected));
    [left; reflexivity|].
  unfold cond.
  rewrite (check_cond_triple facts (VStr "cgpa") (VStr op_str) expected
             (VFloat 2.0) op_func Hcgpa Ho), Hcmp.
  reflexivity.
Qed.

(** A rule with a single condition that holds. *)
Lemma rule_matches_single (rule : Rule) (field op_str : string) (op_func : op)
    (actual expected : value) :
  conditions rule = Some [cond field op_str expected] ->
  facts !! field = Some actual ->
  OPERATORS !! op_str = Some op_func ->
  apply_op op_func actual expected = Ok true ->
  rule_matches rule facts = Ok true.
Proof.
  intros Hc Hf Ho Hcmp. unfold rule_matches. rewrite Hc.
  cbn [get rule_matches_loop]. unfold cond.
  rewrite (check_cond_triple facts (VStr field) (VStr op_str) expected
             actual op_func Hf Ho), Hcmp.
  reflexivity.
Qed.

Lemma default_rules_rejected_filter :
  List.filter (matches facts) DEFAULT_RULES = [rule_low_cgpa; rule_disciplinary].
Proof.
  assert (H1 : matches facts rule_top_merit = false).
  { unfold matches.
    rewrite (rule_matches_cgpa_fails rule_top_merit ">=" Ge _ _ eq_refl eq_refl eq_refl).
    reflexivity. }
  assert (H2 : matches facts rule_good_candidate = false).
  { unfold matches.
    rewrite (rule_matches_cgpa_fails rule_good_candidate ">=" Ge _ _ eq_refl eq_refl eq_refl).
    reflexivity. }
  assert (H3 : matches facts rule_need_based = false).
  { unfold matches.
    rewrite (rule_matches_cgpa_fails rule_need_based ">=" Ge _ _ eq_refl eq_refl eq_refl).
    reflexivity. }
  assert (H4 : matches facts rule_low_cgpa = true).
  { unfold matches.
    rewrite (rule_matches_single rule_low_cgpa "cgpa" "<" Lt_ _ _ eq_refl Hcgpa eq_refl eq_refl).
    reflexivity. }
  assert (H5 : matches facts rule_disciplinary = true).
  { unfold matches.
    rewrite (rule_matches_single rule_disciplinary "disciplinary_actions" ">=" Ge
               _ _ eq_refl Hdisc eq_refl eq_refl).
    reflexivity. }
  unfold DEFAULT_RULES. cbn [List.filter].
  rewrite H1, H2, H3, H4, H5. reflexivity.
Qed.

End Rejection.

(** C5: for facts with a CGPA of 2.0 and three disciplinary actions, the
    low-CGPA rule (priority 95) and the disciplinary rule (priority 90) both
    match, and the low-CGPA rule is selected with the decision "REJECT". *)
Theorem default_rules_rejection_precedence (facts : gmap string value) :
  facts !! "cgpa" = Some (VFloat 2.0) ->
  facts !! "disciplinary_actions" = Some (VInt 3) ->
  rule_matches rule_low_cgpa facts = Ok true
  /\ rule_priority rule_low_cgpa = 95
  /\ rule_matches rule_disciplinary facts = Ok true
  /\ rule_priority rule_disciplinary = 90
  /\ exists result : Result,
       evaluate_applicant facts DEFAULT_RULES = Ok result
       /\ matched_rules result =
            ["Low CGPA – not eligible"; "Serious disciplinary record"]
       /\ selected_rule result = Some "Low CGPA – not eligible"
       /\ decision result = "REJECT".
Proof.
  intros Hcgpa Hdisc.
  pose proof (default_rules_rejected_filter facts Hcgpa Hdisc) as Hfilter.
  split; [|split; [reflexivity|split; [|split; [reflexivity|]]]].
  - apply (rule_matches_single facts rule_low_cgpa "cgpa" "<" Lt_ _ _
             eq_refl Hcgpa eq_refl eq_refl).
  - apply (rule_matches_single facts rule_disciplinary "disciplinary_actions"
             ">=" Ge _ _ eq_refl Hdisc eq_refl eq_refl).
  - eexists. split; [apply (evaluate_applicant_match facts _ _ _ Hfilter)|].
    repeat split.
Qed.

Lemma default_rules_rejection_precedence_witness :
  rule_matches rule_low_cgpa applicant_rejected = Ok true
  /\ rule_priority rule_low_cgpa = 95
  /\ rule_matches rule_disciplinary applicant_rejected = Ok true
  /\ rule_priority rule_disciplinary = 90
  /\ exists result : Result,
       evaluate_applicant applicant_rejected DEFAULT_RULES = Ok result
       /\ matched_rules result =
            ["Low CGPA – not eligible"; "Serious disciplinary record"]
       /\ selected_rule result = Some "Low CGPA – not eligible"
       /\ decision result = "REJECT".
Proof.
  apply (default_rules_rejection_precedence applicant_rejected); reflexivity.
Defined.

(** ** The resolver on the object store: what it reads and writes *)

Lemma run_bind {A B : Type} (m : M A) (k : A -> M B) (h : gmap loc obj) :
  run (m ≫= k) h =
    match run m h with
    | Done (Ok a) h' => run (k a) h'
    | Done (Raise e) h' => Done (Raise e) h'
    | OutOfFuel => OutOfFuel
    end.
Proof. reflexivity. Qed.

Lemma run_load_list (h : gmap loc obj) (l : loc) (refs : list loc) :
  h !! l = Some (OList refs) -> run (load_list l) h = Done (Ok refs) h.
Proof. intros H. unfold load_list. rewrite run_bind. simpl. rewrite H. reflexivity. Qed.

Lemma run_load_dict (h : gmap loc obj) (l : loc) (d : gmap string value) :
  h !! l = Some (ODict d) -> run (load_dict l) h = Done (Ok d) h.
Proof. intros H. unfold load_dict. rewrite run_bind. simpl. rewrite H. reflexivity. Qed.

Lemma run_load_rule (h : gmap loc obj) (l : loc) (r : Rule) :
  h !! l = Some (ORule r) -> run (load_rule l) h = Done (Ok r) h.
Proof. intros H. unfold load_rule. rewrite run_bind. simpl. rewrite H. reflexivity. Qed.

Lemma run_append (h : gmap loc obj) (l x : loc) (refs : list loc) :
  h !! l = Some (OList refs) ->
  run (append l x) h = Done (Ok tt) (<[l := OList (refs ++ [x])]> h).
Proof.
  intros H. unfold append. rewrite run_bind, (run_load_list h l refs H).
  reflexivity.
Qed.

Lemma run_rule_matches_ref (h : gmap loc obj) (rule_ref facts_ref : loc)
    (r : Rule) (facts : gmap string value) :
  h !! rule_ref = Some (ORule r) ->
  h !! facts_ref = Some (ODict facts) ->
  run (rule_matches_ref rule_ref facts_ref) h = Done (Ok (matches facts r)) h.
Proof.
  intros Hr Hf. unfold rule_matches_ref.
  rewrite run_bind, (run_load_rule h rule_ref r Hr).
  rewrite run_bind, (run_load_dict h facts_ref facts Hf).
  simpl. rewrite rule_matches_matches. reflexivity.
Qed.

Lemma run_load_rules (h : gmap loc obj) (refs : list loc) (rules : list Rule) :
  Forall2 (fun l r => h !! l = Some (ORule r)) refs rules ->
  run (load_rules refs) h = Done (Ok rules) h.
Proof.
  induction 1 as [|l r refs rules Hl _ IH]; [reflexivity|].
  cbn [load_rules]. rewrite run_bind, (run_load_rule h l r Hl).
  rewrite run_bind, IH. reflexivity.
Qed.

Lemma select_refs_filter (P : loc -> Rule -> Prop) (facts : gmap string value)
    (refs : list loc) (rules : list Rule) :
  Forall2 P refs rules ->
  Forall2 P (select_refs facts refs rules) (List.filter (matches facts) rules).
Proof.
  induction 1 as [|l r refs rules Hl _ IH]; simpl; [constructor|].
  destruct (matches facts r); [constructor|]; assumption.
Qed.

Section Store.

Variables (h0 : gmap loc obj) (facts_ref rules_ref matched_ref : loc).
Variables (facts : gmap string value) (refs : list loc).

Hypothesis Hfacts : h0 !! facts_ref = Some (ODict facts).
Hypothesis Hrules : h0 !! rules_ref = Some (OList refs).
Hypothesis Hfresh : h0 !! matched_ref = None.

(** An object of [h0] is not the list at [matched_ref]: writing that list
    leaves it as it was. *)
Lemma lookup_other (l : loc) (o x : obj) :
  h0 !! l = Some o -> <[matched_ref := x]> h0 !! l = Some o.
Proof.
  intros Hl. rewrite lookup_insert_ne; [exact Hl|].
  intros ->. rewrite Hfresh in Hl. discriminate Hl.
Qed.

(** The loop, from item [i] on: it appends to the list at [matched_ref] the
    references of the remaining rules that match, and writes nothing else. *)
Lemma run_for_rules (todo : list loc) (rules : list Rule) :
  Forall2 (fun l r => h0 !! l = Some (ORule r)) todo rules ->
  forall (i : nat) (acc : list loc) (fuel : nat),
    drop i refs = todo ->
    (length todo < fuel)%nat ->
    run (for_rules fuel i rules_ref facts_ref matched_ref)
        (<[matched_ref := OList acc]> h0)
    = Done (Ok tt)
        (<[matched_ref := OList (acc ++ select_refs facts todo rules)]> h0).
Proof.
  induction 1 as [|l r todo rules Hl _ IH]; intros i acc fuel Hdrop Hfuel;
    (destruct fuel as [|fuel]; [simpl in Hfuel; lia|]);
    cbn [for_rules];
    rewrite run_bind, (run_load_list _ rules_ref refs (lookup_other _ _ _ Hrules)).
  - assert (Hi : refs !! i = None).
    { rewrite <- (Nat.add_0_r i), <- lookup_drop, Hdrop. reflexivity. }
    rewrite Hi. simpl. rewrite app_nil_r. reflexivity.
  - assert (Hi : refs !! i = Some l).
    { rewrite <- (Nat.add_0_r i), <- lookup_drop, Hdrop. reflexivity. }
    assert (Hdrop' : drop (S i) refs = todo).
    { rewrite (drop_S refs l i Hi) in Hdrop. injection Hdrop as Hdrop. exact Hdrop. }
    rewrite Hi, run_bind.
    rewrite (run_rule_matches_ref _ l facts_ref r facts
               (lookup_other _ _ _ Hl) (lookup_other _ _ _ Hfacts)).
    rewrite run_bind. cbn [select_refs].
    simpl in Hfuel.
    destruct (matches facts r).
    + rewrite (run_append _ matched_ref l acc (lookup_insert_eq _ _ _)).
      rewrite insert_insert_eq.
      rewrite (IH (S i) (acc ++ [l])%list fuel Hdrop' ltac:(lia)).
      rewrite <- app_assoc. reflexivity.
    + simpl. apply (IH (S i) acc fuel Hdrop'). lia.
Qed.

End Store.

Lemma evaluate_applicant_total (facts : gmap string value) (rules : list Rule) :
  exists result : Result, evaluate_applicant facts rules = Ok result.
Proof.
  destruct (List.filter (matches facts) rules) as [|m rest] eqn:Hfilter.
  - eexists. apply evaluate_applicant_no_match, Hfilter.
  - eexists. apply (evaluate_applicant_match facts rules m rest Hfilter).
Qed.

Lemma represents_preserved (h h' : gmap loc obj) (facts_ref rules_ref : loc)
    (facts : gmap string value) (rules : list Rule) :
  (forall l o, h !! l = Some o -> h' !! l = Some o) ->
  represents h facts_ref rules_ref facts rules ->
  represents h' facts_ref rules_ref facts rules.
Proof.
  intros Hkeep (Hf & refs & Hr & Hall). split; [apply Hkeep, Hf|].
  exists refs. split; [apply Hkeep, Hr|].
  clear Hr. induction Hall as [|l r refs rules Hl _ IH]; constructor;
    [apply Hkeep, Hl | exact IH].
Qed.

Lemma represents_rules_other (h : gmap loc obj) (m : loc) (x : obj)
    (refs : list loc) (rules : list Rule) :
  h !! m = None ->
  Forall2 (fun l r => h !! l = Some (ORule r)) refs rules ->
  Forall2 (fun l r => <[m := x]> h !! l = Some (ORule r)) refs rules.
Proof.
  intros Hfresh Hall.
  induction Hall as [|l r refs rules Hl _ IH]; constructor;
    [apply (lookup_other h m Hfresh), Hl | exact IH].
Qed.

(** One call on the store: it returns what [evaluate_applicant] computes
    from the facts and the rules, and every object of the store is left
    as it was. *)
Lemma run_evaluate_applicant_ref (fuel : nat) (h : gmap loc obj)
    (facts_ref rules_ref : loc) (facts : gmap string value) (rules : list Rule) :
  represents h facts_ref rules_ref facts rules ->
  (length rules < fuel)%nat ->
  exists h' : gmap loc obj,
    run (evaluate_applicant_ref fuel facts_ref rules_ref) h
      = Done (evaluate_applicant facts rules) h'
    /\ (forall l o, h !! l = Some o -> h' !! l = Some o).
Proof.
  intros (Hf & refs & Hr & Hall) Hfuel.
  set (m := fresh (dom h)).
  assert (Hfresh : h !! m = None).
  { apply not_elem_of_dom. apply is_fresh. }
  pose proof (Forall2_length _ _ _ Hall) as Hlen.
  exists (<[m := OList (select_refs facts refs rules)]> h).
  split; [|intros l o Hl; apply (lookup_other h m Hfresh l o _ Hl)].
  unfold evaluate_applicant_ref. rewrite run_bind.
  cbn [alloc run]. fold m. rewrite run_bind.
  rewrite (run_for_rules h facts_ref rules_ref m facts refs Hf Hr Hfresh
             refs rules Hall 0%nat [] fuel eq_refl ltac:(lia)).
  cbn [app]. rewrite run_bind.
  rewrite (run_load_list _ m _ (lookup_insert_eq _ _ _)).
  pose proof (select_refs_filter _ facts refs rules Hall) as Hsel.
  destruct (List.filter (matches facts) rules) as [|r0 rest] eqn:Hfilter.
  - inversion Hsel as [Hnil|]. cbn [is_empty].
    rewrite (evaluate_applicant_no_match facts rules Hfilter). reflexivity.
  - rewrite (evaluate_applicant_match facts rules r0 rest Hfilter).
    assert (Hsel' : Forall2
              (fun l r => <[m := OList (select_refs facts refs rules)]> h !! l
                          = Some (ORule r))
              (select_refs facts refs rules) (r0 :: rest)).
    { apply (represents_rules_other h m _ _ _ Hfresh Hsel). }
    destruct (select_refs facts refs rules) as [|l0 sel] eqn:Esel;
      [inversion Hsel|].
    cbn [is_empty]. rewrite run_bind, (run_load_rules _ _ _ Hsel').
    reflexivity.
Qed.

(** C9: evaluation is a function of the facts and the rules, and writes to
    none of its inputs.  On any store holding the facts and the rule list,
    two calls in a row return the same result, the one [evaluate_applicant]
    computes from the facts and the rules alone, and after each call every
    object that was in the store (the facts, the rule list, each rule) is
    as it was before. *)
Theorem evaluate_applicant_pure_function (fuel : nat) (h : gmap loc obj)
    (facts_ref rules_ref : loc) (facts : gmap string value) (rules : list Rule) :
  represents h facts_ref rules_ref facts rules ->
  (length rules < fuel)%nat ->
  exists (result : Result) (h1 h2 : gmap loc obj),
    evaluate_applicant facts rules = Ok result
    /\ run (evaluate_applicant_ref fuel facts_ref rules_ref) h = Done (Ok result) h1
    /\ run (evaluate_applicant_ref fuel facts_ref rules_ref) h1 = Done (Ok result) h2
    /\ (forall l o, h !! l = Some o -> h1 !! l = Some o /\ h2 !! l = Some o)
    /\ represents h1 facts_ref rules_ref facts rules
    /\ represents h2 facts_ref rules_ref facts rules.
Proof.
  intros Hrep Hfuel.
  destruct (evaluate_applicant_total facts rules) as [result Hresult].
  destruct (run_evaluate_applicant_ref fuel h _ _ _ _ Hrep Hfuel)
    as (h1 & Hrun1 & Hkeep1).
  pose proof (represents_preserved h h1 _ _ _ _ Hkeep1 Hrep) as Hrep1.
  destruct (run_evaluate_applicant_ref fuel h1 _ _ _ _ Hrep1 Hfuel)
    as (h2 & Hrun2 & Hkeep2).
  exists result, h1, h2. rewrite <- Hresult.
  split; [reflexivity|]. split; [exact Hrun1|]. split; [exact Hrun2|].
  split; [|split; [exact Hrep1|]].
  - intros l o Hl. split; [|apply Hkeep2]; apply Hkeep1, Hl.
  - apply (represents_preserved h1 h2 _ _ _ _ Hkeep2 Hrep1).
Qed.

Lemma evaluate_applicant_pure_function_witness :
  exists (result : Result) (h1 h2 : gmap loc obj),
    evaluate_applicant applicant_rejected DEFAULT_RULES = Ok result
    /\ run (evaluate_applicant_ref 6 1%positive 2%positive) sample_store
         = Done (Ok result) h1
    /\ run (evaluate_applicant_ref 6 1%positive 2%positive) h1 = Done (Ok result) h2
    /\ (forall l o, sample_store !! l = Some o ->
          h1 !! l = Some o /\ h2 !! l = Some o)
    /\ represents h1 1%positive 2%positive applicant_rejected DEFAULT_RULES
    /\ represents h2 1%positive 2%positive applicant_rejected DEFAULT_RULES.
Proof.
  apply (evaluate_applicant_pure_function 6 sample_store 1%positive 2%positive
           applicant_rejected DEFAULT_RULES).
  - split; [reflexivity|].
    exists [3; 4; 5; 6; 7]%positive. split; [reflexivity|].
    repeat constructor.
  - simpl. lia.
Defined.

(** ** Further properties of the condition evaluator *)

Lemma check_cond_true_iff (facts : gmap string value) (c : list value) :
  check_cond c facts = Ok true <-> cond_holds facts c.
Proof.
  split.
  - intros Hc. destruct (Nat.eq_dec (length c) 3%nat) as [Hlen|Hlen];
      [|rewrite (check_cond_arity facts c Hlen) in Hc; discriminate Hc].
    destruct (unpack3_length c Hlen) as (f & o & e & ->).
    destruct (facts_get facts f) as [a|] eqn:Hf;
      [|rewrite (check_cond_missing facts f o e Hf) in Hc; discriminate Hc].
    destruct (OPERATORS_get o) as [op_func|] eqn:Ho;
      [|rewrite (check_cond_unknown facts f o e Ho) in Hc; discriminate Hc].
    rewrite (check_cond_triple facts f o e a op_func Hf Ho) in Hc.
    exists f, o, e, a, op_func. repeat split; try assumption.
    destruct (apply_op op_func a e) as [[|]|x]; [reflexivity|discriminate Hc..].
  - intros (f & o & e & a & op_func & -> & Hf & Ho & Hcmp).
    rewrite (check_cond_triple facts f o e a op_func Hf Ho), Hcmp. reflexivity.
Qed.

Lemma rule_matches_loop_true_iff (facts : gmap string value)
    (conds : list (list value)) :
  rule_matches_loop conds facts = Ok true <-> Forall (cond_holds facts) conds.
Proof.
  induction conds as [|c conds IH]; simpl.
  - split; [constructor | reflexivity].
  - destruct (check_cond_total facts c) as [[|] Hc]; rewrite Hc; simpl.
    + rewrite IH. split.
      * intros H. constructor; [apply check_cond_true_iff, Hc | exact H].
      * intros H. inversion H. assumption.
    + split; [discriminate|].
      intros H. inversion H as [|? ? Hh _]. apply check_cond_true_iff in Hh.
      rewrite Hh in Hc. discriminate Hc.
Qed.

Lemma rule_matches_loop_app (facts : gmap string value)
    (cs1 cs2 : list (list value)) :
  rule_matches_loop (cs1 ++ cs2) facts =
    match rule_matches_loop cs1 facts with
    | Ok true => rule_matches_loop cs2 facts
    | other => other
    end.
Proof.
  induction cs1 as [|c cs1 IH]; simpl; [reflexivity|].
  destruct (check_cond_total facts c) as [[|] ->]; simpl; [exact IH|reflexivity].
Qed.

(** A rule whose conditions are those of two rules put end to end matches
    exactly when both match. *)
Theorem rule_matches_concatenation
    (facts : gmap string value) (rule rule1 rule2 : Rule) :
  get (conditions rule) [] =
    (get (conditions rule1) [] ++ get (conditions rule2) [])%list ->
  matches facts rule = matches facts rule1 && matches facts rule2.
Proof.
  intros Hc. unfold matches, rule_matches. rewrite Hc, rule_matches_loop_app.
  destruct (rule_matches_loop_total facts (get (conditions rule1) []))
    as [[|] ->]; [|reflexivity].
  destruct (rule_matches_loop_total facts (get (conditions rule2) []))
    as [[|] ->]; reflexivity.
Qed.

Lemma rule_matches_concatenation_witness :
  matches applicant_merit rule_need_based =
    matches applicant_merit rule_cgpa_floor && matches applicant_merit rule_income_cap.
Proof.
  apply (rule_matches_concatenation applicant_merit
           rule_need_based rule_cgpa_floor rule_income_cap).
  reflexivity.
Defined.

Lemma rule_matches_loop_forallb (facts : gmap string value)
    (conds : list (list value)) :
  rule_matches_loop conds facts =
    Ok (forallb (fun c => match check_cond c facts with
                          | Ok true => true
                          | _ => false
                          end) conds).
Proof.
  induction conds as [|c conds IH]; simpl; [reflexivity|].
  destruct (check_cond_total facts c) as [[|] ->]; simpl; [exact IH|reflexivity].
Qed.

Lemma forallb_Permutation {A : Type} (f : A -> bool) (l l' : list A) :
  Permutation l l' -> forallb f l = forallb f l'.
Proof.
  induction 1 as [|x l l' _ IH|x y l|l l' l'' _ IH1 _ IH2]; simpl.
  - reflexivity.
  - rewrite IH. reflexivity.
  - destruct (f x), (f y); reflexivity.
  - congruence.
Qed.

Lemma check_cond_agree (facts facts' : gmap string value) (c : list value) :
  (forall field op_str expected,
     c = [field; op_str; expected] ->
     facts_get facts field = facts_get facts' field) ->
  check_cond c facts = check_cond c facts'.
Proof.
  intros Hagree. destruct (Nat.eq_dec (length c) 3%nat) as [Hlen|Hlen];
    [|rewrite !check_cond_arity by exact Hlen; reflexivity].
  destruct (unpack3_length c Hlen) as (f & o & e & ->).
  specialize (Hagree f o e eq_refl).
  unfold check_cond, contains, getitem. simpl. rewrite Hagree. reflexivity.
Qed.

Lemma rule_matches_agree (facts facts' : gmap string value) (rule : Rule) :
  (forall field op_str expected,
     In [field; op_str; expected] (get (conditions rule) []) ->
     facts_get facts field = facts_get facts' field) ->
  rule_matches rule facts = rule_matches rule facts'.
Proof.
  unfold rule_matches. induction (get (conditions rule) []) as [|c conds IH];
    intros Hagree; simpl; [reflexivity|].
  rewrite (check_cond_agree facts facts' c)
    by (intros f o e ->; apply (Hagree f o e); left; reflexivity).
  destruct (check_cond_total facts' c) as [[|] ->]; simpl; [|reflexivity].
  apply IH. intros f o e Hin. apply (Hagree f o e). right. exact Hin.
Qed.

(** A rule reads the facts only at the fields its three-element conditions
    name: two fact mappings that agree on these fields give the same
    answer, whatever else they hold. *)
Theorem rule_matches_reads_named_fields
    (facts facts' : gmap string value) (rule : Rule) :
  (forall field op_str expected,
     In [field; op_str; expected] (get (conditions rule) []) ->
     facts_get facts field = facts_get facts' field) ->
  rule_matches rule facts = rule_matches rule facts'.
Proof. apply rule_matches_agree. Qed.

Lemma rule_matches_reads_named_fields_witness :
  rule_matches rule_need_based applicant_merit =
    rule_matches rule_need_based applicant_merit_idle.
Proof.
  apply (rule_matches_reads_named_fields applicant_merit applicant_merit_idle
           rule_need_based).
  intros f o e [H|[H|[]]]; injection H as <- _ _; reflexivity.
Defined.

(** ** Further properties of the decision resolver *)

(** The result depends on the facts and the rules only through the list of
    the rules that match. *)
Lemma evaluate_applicant_filter_ext
    (facts facts' : gmap string value) (rules rules' : list Rule) :
  List.filter (matches facts) rules = List.filter (matches facts') rules' ->
  evaluate_applicant facts rules = evaluate_applicant facts' rules'.
Proof.
  intros H. unfold evaluate_applicant.
  rewrite !collect_matched_filter, H. reflexivity.
Qed.

(** A rule that does not match has no influence on the result, wherever it
    stands in the rule set and whatever its priority. *)
Theorem evaluate_applicant_ignores_unmatched
    (facts : gmap string value) (l1 : list Rule) (r : Rule) (l2 : list Rule) :
  rule_matches r facts <> Ok true ->
  evaluate_applicant facts (l1 ++ r :: l2) = evaluate_applicant facts (l1 ++ l2).
Proof.
  intros Hr. apply evaluate_applicant_filter_ext.
  rewrite !List.filter_app. simpl.
  destruct (matches facts r) eqn:Hm; [|reflexivity].
  apply matches_true in Hm. contradiction.
Qed.

Lemma evaluate_applicant_ignores_unmatched_witness :
  evaluate_applicant applicant_merit
    ([rule_top_merit] ++ rule_need_based :: [rule_good_candidate])
  = evaluate_applicant applicant_merit ([rule_top_merit] ++ [rule_good_candidate]).
Proof.
  apply (evaluate_applicant_ignores_unmatched applicant_merit
           [rule_top_merit] rule_need_based [rule_good_candidate]).
  vm_compute. discriminate.
Defined.

(** Where the scan of [max] stops: everything before the result is
    strictly smaller, nothing after it is greater. *)
Lemma max_scan_split {A : Type} (key : A -> Z) (m : A) (items : list A) :
  exists l1 l2,
    m :: items = (l1 ++ max_scan key m items :: l2)%list
    /\ (forall x, In x l1 -> key x < key (max_scan key m items))
    /\ (forall x, In x l2 -> key x <= key (max_scan key m items)).
Proof.
  revert m. induction items as [|y items IH]; intros m; simpl.
  - exists [], []. split; [reflexivity|]. split; intros x [].
  - destruct (Z.gtb_spec (key y) (key m)) as [Hgt|Hle].
    + destruct (IH y) as (l1 & l2 & Heq & H1 & H2).
      exists (m :: l1), l2. split; [simpl; f_equal; exact Heq|].
      split; [|exact H2].
      intros x [<-|Hx]; [|apply H1, Hx].
      pose proof (max_scan_ge_init key y items). lia.
    + destruct (IH m) as (l1 & l2 & Heq & H1 & H2).
      destruct l1 as [|m' l1]; simpl in Heq; injection Heq as Hm Hitems.
      * exists [], (y :: l2). split; [simpl; rewrite <- Hm; do 2 f_equal; exact Hitems|].
        split; [intros x []|].
        intros x [<-|Hx]; [rewrite <- Hm; exact Hle | apply H2, Hx].
      * subst m'. exists (m :: y :: l1), l2.
        split; [simpl; do 2 f_equal; exact Hitems|]. split; [|exact H2].
        intros x [<-|[<-|Hx]].
        -- apply H1. left. reflexivity.
        -- specialize (H1 m (or_introl eq_refl)). lia.
        -- apply H1. right. exact Hx.
Qed.

Lemma filter_split {A : Type} (f : A -> bool) (l : list A) (l1 : list A)
    (w : A) (l2 : list A) :
  List.filter f l = (l1 ++ w :: l2)%list ->
  exists r1 r2,
    l = (r1 ++ w :: r2)%list /\ List.filter f r1 = l1 /\ List.filter f r2 = l2.
Proof.
  revert l1. induction l as [|x l IH]; intros l1 H; simpl in H.
  - destruct l1; discriminate H.
  - destruct (f x) eqn:Hx.
    + destruct l1 as [|y l1]; simpl in H; injection H as Hy Hrest.
      * subst x. exists [], l. auto.
      * subst y. destruct (IH l1 Hrest) as (r1 & r2 & -> & Hr1 & Hr2).
        exists (x :: r1), r2. simpl. rewrite Hx, Hr1. auto.
    + destruct (IH l1 H) as (r1 & r2 & -> & Hr1 & Hr2).
      exists (x :: r1), r2. simpl. rewrite Hx. auto.
Qed.

(** Whenever some rule matches, the selected rule is the first matched rule
    of maximum priority: the rule set splits around it into matched rules
    of strictly lower priority before and of no higher priority after. *)
Theorem evaluate_applicant_selects_first_max
    (facts : gmap string value) (rules : list Rule) :
  (exists r, In r rules /\ rule_matches r facts = Ok true) ->
  exists (l1 : list Rule) (w : Rule) (l2 : list Rule) (result : Result),
    rules = (l1 ++ w :: l2)%list
    /\ rule_matches w facts = Ok true
    /\ (forall r, In r l1 -> rule_matches r facts = Ok true ->
          rule_priority r < rule_priority w)
    /\ (forall r, In r l2 -> rule_matches r facts = Ok true ->
          rule_priority r <= rule_priority w)
    /\ evaluate_applicant facts rules = Ok result
    /\ selected_rule result = Some (rule_name w)
    /\ decision result =
         get (act_decision (get (action w) (mkAction None None))) "REVIEW"
    /\ reason result =
         get (act_reason (get (action w) (mkAction None None))) "".
Proof.
  intros (r & Hr & Hm).
  destruct (List.filter (matches facts) rules) as [|m rest] eqn:Hfilter.
  - exfalso. assert (Hin : In r (List.filter (matches facts) rules))
      by (apply filter_matches_In; split; assumption).
    rewrite Hfilter in Hin. exact Hin.
  - destruct (max_scan_split rule_priority m rest) as (f1 & f2 & Heq & H1 & H2).
    set (w := max_scan rule_priority m rest) in *.
    rewrite Heq in Hfilter.
    destruct (filter_split _ _ _ _ _ Hfilter) as (l1 & l2 & -> & Hl1 & Hl2).
    assert (Hw : In w (List.filter (matches facts) (l1 ++ w :: l2))).
    { rewrite Hfilter. apply in_elt. }
    apply filter_matches_In in Hw as [_ Hw].
    exists l1, w, l2. eexists.
    split; [reflexivity|]. split; [exact Hw|].
    split; [|split].
    + intros x Hx Hxm. apply H1. rewrite <- Hl1.
      apply filter_matches_In. split; assumption.
    + intros x Hx Hxm. apply H2. rewrite <- Hl2.
      apply filter_matches_In. split; assumption.
    + rewrite <- Heq in Hfilter.
      split; [apply (evaluate_applicant_match facts _ m rest Hfilter)|].
      cbn [selected_rule decision reason]. fold w. auto.
Qed.

Lemma evaluate_applicant_selects_first_max_witness :
  exists (l1 : list Rule) (w : Rule) (l2 : list Rule) (result : Result),
    DEFAULT_RULES = (l1 ++ w :: l2)%list
    /\ rule_matches w applicant_rejected = Ok true
    /\ (forall r, In r l1 -> rule_matches r applicant_rejected = Ok true ->
          rule_priority r < rule_priority w)
    /\ (forall r, In r l2 -> rule_matches r applicant_rejected = Ok true ->
          rule_priority r <= rule_priority w)
    /\ evaluate_applicant applicant_rejected DEFAULT_RULES = Ok result
    /\ selected_rule result = Some (rule_name w)
    /\ decision result =
         get (act_decision (get (action w) (mkAction None None))) "REVIEW"
    /\ reason result =
         get (act_reason (get (action w) (mkAction None None))) "".
Proof.
  apply (evaluate_applicant_selects_first_max applicant_rejected DEFAULT_RULES).
  exists rule_low_cgpa. split; [simpl; auto | vm_compute; reflexivity].
Defined.

(** The rule selected among a non-empty list of matched rules. *)
Lemma evaluate_applicant_winner
    (facts : gmap string value) (rules : list Rule) :
  (exists r, In r rules /\ rule_matches r facts = Ok true) ->
  exists (w : Rule) (result : Result),
    evaluate_applicant facts rules = Ok result
    /\ In w rules /\ rule_matches w facts = Ok true
    /\ (forall r, In r rules -> rule_matches r facts = Ok true ->
          rule_priority r <= rule_priority w)
    /\ selected_rule result = Some (rule_name w)
    /\ decision result =
         get (act_decision (get (action w) (mkAction None None))) "REVIEW"
    /\ reason result =
         get (act_reason (get (action w) (mkAction None None))) "".
Proof.
  intros (r & Hr & Hm).
  destruct (List.filter (matches facts) rules) as [|m rest] eqn:Hfilter.
  - exfalso. assert (Hin : In r (List.filter (matches facts) rules))
      by (apply filter_matches_In; split; assumption).
    rewrite Hfilter in Hin. exact Hin.
  - pose proof (max_scan_In rule_priority m rest) as Hin.
    rewrite <- Hfilter in Hin. apply filter_matches_In in Hin as [Hw Hwm].
    exists (max_scan rule_priority m rest). eexists.
    split; [apply (evaluate_applicant_match facts rules m rest Hfilter)|].
    cbn [selected_rule decision reason].
    repeat split; try assumption.
    intros x Hx Hxm. apply max_scan_ge. rewrite <- Hfilter.
    apply filter_matches_In. split; assumption.
Qed.

(** The order of the rules matters for ties only: when the matched rules
    have pairwise distinct priorities, reordering the rule set changes
    neither the selected rule nor the decision nor the reason. *)
Theorem evaluate_applicant_rule_order
    (facts : gmap string value) (rules rules' : list Rule) :
  Permutation rules rules' ->
  (forall r1 r2, In r1 rules -> In r2 rules ->
     rule_matches r1 facts = Ok true -> rule_matches r2 facts = Ok true ->
     rule_priority r1 = rule_priority r2 -> r1 = r2) ->
  exists result result' : Result,
    evaluate_applicant facts rules = Ok result
    /\ evaluate_applicant facts rules' = Ok result'
    /\ selected_rule result' = selected_rule result
    /\ decision result' = decision result
    /\ reason result' = reason result.
Proof.
  intros Hperm Hdistinct.
  destruct (List.filter (matches facts) rules) as [|m rest] eqn:Hfilter.
  - assert (Hfilter' : List.filter (matches facts) rules' = []).
    { destruct (List.filter (matches facts) rules') as [|m' rest'] eqn:E;
        [reflexivity|].
      assert (Hin : In m' (List.filter (matches facts) rules'))
        by (rewrite E; left; reflexivity).
      apply filter_matches_In in Hin as [Hin Hm'].
      apply (Permutation_in _ (Permutation_sym Hperm)) in Hin.
      assert (Hin' : In m' (List.filter (matches facts) rules))
        by (apply filter_matches_In; split; assumption).
      rewrite Hfilter in Hin'. destruct Hin'. }
    eexists. eexists.
    split; [apply evaluate_applicant_no_match, Hfilter|].
    split; [apply evaluate_applicant_no_match, Hfilter'|]. auto.
  - assert (Hm : In m rules /\ rule_matches m facts = Ok true).
    { apply filter_matches_In. rewrite Hfilter. left. reflexivity. }
    destruct Hm as [Hm Hmm].
    destruct (evaluate_applicant_winner facts rules (ex_intro _ m (conj Hm Hmm)))
      as (w & result & Heval & Hw & Hwm & Hmax & Hsel & Hdec & Hrea).
    destruct (evaluate_applicant_winner facts rules'
                (ex_intro _ m (conj (Permutation_in _ Hperm Hm) Hmm)))
      as (w' & result' & Heval' & Hw' & Hwm' & Hmax' & Hsel' & Hdec' & Hrea').
    apply (Permutation_in _ (Permutation_sym Hperm)) in Hw'.
    assert (Heq : w' = w).
    { apply Hdistinct; try assumption.
      pose proof (Hmax w' Hw' Hwm').
      pose proof (Hmax' w (Permutation_in _ Hperm Hw) Hwm). lia. }
    subst w'. exists result, result'.
    rewrite Hsel, Hsel', Hdec, Hdec', Hrea, Hrea'. auto.
Qed.

Lemma evaluate_applicant_rule_order_witness :
  exists result result' : Result,
    evaluate_applicant applicant_merit DEFAULT_RULES = Ok result
    /\ evaluate_applicant applicant_merit (rev DEFAULT_RULES) = Ok result'
    /\ selected_rule result' = selected_rule result
    /\ decision result' = decision result
    /\ reason result' = reason result.
Proof.
  apply (evaluate_applicant_rule_order applicant_merit
           DEFAULT_RULES (rev DEFAULT_RULES)).
  - apply Permutation_rev.
  - intros r1 r2 H1 H2 _ _.
    simpl in H1, H2.
    repeat (destruct H1 as [<-|H1]);
      repeat (destruct H2 as [<-|H2]);
      try contradiction; try reflexivity; vm_compute; discriminate.
Defined.

Lemma decision_from_rules
    (facts : gmap string value) (rules : list Rule) (result : Result) :
  evaluate_applicant facts rules = Ok result ->
  decision result = "REVIEW"
  \/ exists (r : Rule) (a : Action),
       In r rules /\ rule_matches r facts = Ok true
       /\ action r = Some a /\ act_decision a = Some (decision result).
Proof.
  intros Heval.
  destruct (List.filter (matches facts) rules) as [|m rest] eqn:Hfilter.
  - rewrite (evaluate_applicant_no_match facts rules Hfilter) in Heval.
    injection Heval as <-. left. reflexivity.
  - rewrite (evaluate_applicant_match facts rules m rest Hfilter) in Heval.
    injection Heval as <-. cbn [decision].
    pose proof (max_scan_In rule_priority m rest) as Hin.
    rewrite <- Hfilter in Hin. apply filter_matches_In in Hin as [Hw Hwm].
    destruct (action (max_scan rule_priority m rest)) as [a|] eqn:Ha;
      cbn [get act_decision]; [|left; reflexivity].
    destruct (act_decision a) as [d|] eqn:Hd; cbn [get]; [|left; reflexivity].
    right. exists (max_scan rule_priority m rest), a. auto.
Qed.

(** The decision is never made up: it is "REVIEW", or the decision written
    in the action of a rule of the rule set that matches. *)
Theorem evaluate_applicant_decision_provenance
    (facts : gmap string value) (rules : list Rule) (result : Result) :
  evaluate_applicant facts rules = Ok result ->
  decision result = "REVIEW"
  \/ exists (r : Rule) (a : Action),
       In r rules /\ rule_matches r facts = Ok true
       /\ action r = Some a /\ act_decision a = Some (decision result).
Proof. apply decision_from_rules. Qed.

Lemma evaluate_applicant_decision_provenance_witness :
  "REJECT" = "REVIEW"
  \/ exists (r : Rule) (a : Action),
       In r DEFAULT_RULES /\ rule_matches r applicant_rejected = Ok true
       /\ action r = Some a /\ act_decision a = Some "REJECT".
Proof.
  apply (evaluate_applicant_decision_provenance applicant_rejected DEFAULT_RULES
           {| decision := "REJECT";
              reason := "CGPA below minimum scholarship requirement";
              matched_rules :=
                ["Low CGPA – not eligible"; "Serious disciplinary record"];
              selected_rule := Some "Low CGPA – not eligible" |}).
  vm_compute. reflexivity.
Defined.

Lemma max_scan_app {A : Type} (key : A -> Z) (m : A) (l l' : list A) :
  max_scan key m (l ++ l') = max_scan key (max_scan key m l) l'.
Proof.
  revert m. induction l as [|x l IH]; intros m; simpl; [reflexivity|].
  destruct (key x >? key m); apply IH.
Qed.

(** A rule added at the end of the rule set never takes the place of an
    earlier matching rule of equal or higher priority: the selected rule,
    the decision and the reason stay as they were. *)
Theorem evaluate_applicant_later_rule_no_override
    (facts : gmap string value) (rules : list Rule) (r w : Rule) :
  In w rules -> rule_matches w facts = Ok true ->
  rule_priority r <= rule_priority w ->
  exists result result' : Result,
    evaluate_applicant facts rules = Ok result
    /\ evaluate_applicant facts (rules ++ [r]) = Ok result'
    /\ selected_rule result' = selected_rule result
    /\ decision result' = decision result
    /\ reason result' = reason result.
Proof.
  intros Hw Hwm Hle.
  destruct (List.filter (matches facts) rules) as [|m rest] eqn:Hfilter.
  - exfalso. assert (Hin : In w (List.filter (matches facts) rules))
      by (apply filter_matches_In; split; assumption).
    rewrite Hfilter in Hin. exact Hin.
  - assert (Hbest : rule_priority r <= rule_priority (max_scan rule_priority m rest)).
    { assert (Hin : In w (m :: rest))
        by (rewrite <- Hfilter; apply filter_matches_In; split; assumption).
      pose proof (max_scan_ge rule_priority m rest w Hin). lia. }
    assert (Hfilter' : List.filter (matches facts) (rules ++ [r]) =
              m :: (rest ++ (if matches facts r then [r] else []))%list).
    { rewrite List.filter_app, Hfilter. simpl.
      destruct (matches facts r); reflexivity. }
    assert (Hsame : max_scan rule_priority m
                      (rest ++ (if matches facts r then [r] else []))
                    = max_scan rule_priority m rest).
    { rewrite max_scan_app. destruct (matches facts r); [|reflexivity].
      simpl. destruct (Z.gtb_spec (rule_priority r)
                         (rule_priority (max_scan rule_priority m rest)));
        [lia|reflexivity]. }
    eexists. eexists.
    split; [apply (evaluate_applicant_match facts rules m rest Hfilter)|].
    split; [apply (evaluate_applicant_match facts _ m _ Hfilter')|].
    cbn [selected_rule decision reason]. rewrite Hsame. auto.
Qed.

Lemma evaluate_applicant_later_rule_no_override_witness :
  exists result result' : Result,
    evaluate_applicant ∅ [rule_first] = Ok result
    /\ evaluate_applicant ∅ ([rule_first] ++ [rule_second]) = Ok result'
    /\ selected_rule result' = selected_rule result
    /\ decision result' = decision result
    /\ reason result' = reason result.
Proof.
  apply (evaluate_applicant_later_rule_no_override ∅ [rule_first]
           rule_second rule_first).
  - left. reflexivity.
  - reflexivity.
  - vm_compute. discriminate.
Defined.

(** ** The default rule set as a decision table *)

Lemma apply_op_int (o : op) (a b : Z) :
  apply_op o (VInt a) (VInt b) =
    Ok match o with
       | Ge => b <=? a
       | Le => a <=? b
       | Gt_ => b <? a
       | Lt_ => a <? b
       | Eq_ => a =? b
       end.
Proof.
  destruct o; unfold apply_op, py_order, py_eq; cbn [num_of num_compare];
    f_equal; destruct (Z.compare_spec a b) as [Heq|Hlt|Hgt]; cbn [holds];
    symmetry;
    first [apply Z.leb_le; lia | apply Z.leb_gt; lia | apply Z.ltb_lt; lia
          | apply Z.ltb_ge; lia | apply Z.eqb_eq; lia | apply Z.eqb_neq; lia].
Qed.

Lemma default_rules_table (facts : gmap string value) :
  exists result : Result,
    evaluate_applicant facts DEFAULT_RULES = Ok result
    /\ decision result =
         (if matches facts rule_top_merit then "AWARD_FULL"
          else if matches facts rule_low_cgpa || matches facts rule_disciplinary
               then "REJECT"
          else if matches facts rule_good_candidate then "AWARD_PARTIAL"
          else "REVIEW")
    /\ selected_rule result =
         (if matches facts rule_top_merit then Some "Top merit candidate"
          else if matches facts rule_low_cgpa then Some "Low CGPA – not eligible"
          else if matches facts rule_disciplinary
               then Some "Serious disciplinary record"
          else if matches facts rule_good_candidate
               then Some "Good candidate - partial scholarship"
          else if matches facts rule_need_based then Some "Need-based review"
          else None).
Proof.
  unfold evaluate_applicant. rewrite collect_matched_filter.
  unfold DEFAULT_RULES. cbn [List.filter app].
  destruct (matches facts rule_top_merit), (matches facts rule_good_candidate),
    (matches facts rule_need_based), (matches facts rule_low_cgpa),
    (matches facts rule_disciplinary);
    (eexists; split; [reflexivity|]; split; reflexivity).
Qed.

(** The default rule set decides by four answers only: full award when
    the top-merit rule matches; otherwise rejection when the low-CGPA or
    the disciplinary rule matches; otherwise partial award when the
    good-candidate rule matches; otherwise review, whether the need-based
    rule matches or no rule does.  The selected rule follows the
    priorities 100, 95, 90, 80, 70. *)
Theorem default_rules_decision_table (facts : gmap string value) :
  exists result : Result,
    evaluate_applicant facts DEFAULT_RULES = Ok result
    /\ decision result =
         (if matches facts rule_top_merit then "AWARD_FULL"
          else if matches facts rule_low_cgpa || matches facts rule_disciplinary
               then "REJECT"
          else if matches facts rule_good_candidate then "AWARD_PARTIAL"
          else "REVIEW")
    /\ selected_rule result =
         (if matches facts rule_top_merit then Some "Top merit candidate"
          else if matches facts rule_low_cgpa then Some "Low CGPA – not eligible"
          else if matches facts rule_disciplinary
               then Some "Serious disciplinary record"
          else if matches facts rule_good_candidate
               then Some "Good candidate - partial scholarship"
          else if matches facts rule_need_based then Some "Need-based review"
          else None).
Proof. apply default_rules_table. Qed.

(** Under the default rules an applicant with two or more disciplinary
    actions is rejected, whatever the other facts are. *)
Theorem default_rules_disciplinary_rejects
    (facts : gmap string value) (d : Z) :
  facts !! "disciplinary_actions" = Some (VInt d) ->
  2 <= d ->
  exists result : Result,
    evaluate_applicant facts DEFAULT_RULES = Ok result
    /\ decision result = "REJECT"
    /\ In "Serious disciplinary record" (matched_rules result).
Proof.
  intros Hd Hge.
  assert (Htop : matches facts rule_top_merit = false).
  { unfold matches, rule_matches.
    rewrite (rule_matches_loop_false facts _
               (cond "disciplinary_actions" "==" (VInt 0)));
      [reflexivity | simpl; auto |].
    unfold cond.
    rewrite (check_cond_triple facts (VStr "disciplinary_actions") (VStr "==")
               (VInt 0) (VInt d) Eq_ Hd eq_refl), apply_op_int.
    destruct (Z.eqb_spec d 0); [lia|reflexivity]. }
  assert (Hdisc : matches facts rule_disciplinary = true).
  { unfold matches.
    rewrite (rule_matches_single facts rule_disciplinary "disciplinary_actions"
               ">=" Ge (VInt d) (VInt 2) eq_refl Hd eq_refl); [reflexivity|].
    rewrite apply_op_int. f_equal. apply Z.leb_le, Hge. }
  destruct (default_rules_table facts) as (result & Heval & Hdec & _).
  exists result. split; [exact Heval|].
  rewrite Htop, Hdisc, orb_true_r in Hdec. split; [exact Hdec|].
  revert Heval. unfold evaluate_applicant. rewrite collect_matched_filter.
  unfold DEFAULT_RULES. cbn [List.filter app]. rewrite Htop, Hdisc.
  destruct (matches facts rule_good_candidate), (matches facts rule_need_based),
    (matches facts rule_low_cgpa);
    intros Heval; injection Heval as <-; simpl; tauto.
Qed.

Lemma default_rules_disciplinary_rejects_witness :
  exists result : Result,
    evaluate_applicant applicant_rejected DEFAULT_RULES = Ok result
    /\ decision result = "REJECT"
    /\ In "Serious disciplinary record" (matched_rules result).
Proof.
  apply (default_rules_disciplinary_rejects applicant_rejected 3);
    [reflexivity | lia].
Defined.

(** ** The form of [main] and the default rule set *)

Section Form.

Variables (cgpa family_income : float).
Variables (co_curricular_score community_service_hours current_semester
             disciplinary_actions : Z).

Local Abbreviation form_facts :=
  (applicant_facts cgpa family_income co_curricular_score
     community_service_hours current_semester disciplinary_actions).

Lemma form_default_rule_agree (h s : Z) (rule : Rule) :
  In rule DEFAULT_RULES ->
  matches form_facts rule =
    matches (applicant_facts cgpa family_income co_curricular_score h s
               disciplinary_actions) rule.
Proof.
  intros Hin. unfold matches.
  rewrite (rule_matches_agree form_facts
             (applicant_facts cgpa family_income co_curricular_score h s
                disciplinary_actions) rule); [reflexivity|].
  intros f o e Hc.
  simpl in Hin.
  repeat (destruct Hin as [<-|Hin];
    [simpl in Hc;
     repeat (destruct Hc as [Hc|Hc]; [injection Hc as <- _ _; reflexivity|]);
     destruct Hc|]).
  destruct Hin.
Qed.

Lemma top_merit_on_form :
  rule_matches rule_top_merit form_facts = Ok true <->
  apply_op Ge (VFloat cgpa) (VFloat 3.7) = Ok true
  /\ 80 <= co_curricular_score
  /\ apply_op Le (VFloat family_income) (VInt 8000) = Ok true
  /\ disciplinary_actions = 0.
Proof.
  unfold rule_matches. rewrite rule_matches_loop_true_iff.
  cbn [get conditions rule_top_merit]. unfold cond. split.
  - intros H.
    inversion H as [|? ? H1 H']; subst. inversion H' as [|? ? H2 H'']; subst.
    inversion H'' as [|? ? H3 H''']; subst. inversion H''' as [|? ? H4 _]; subst.
    destruct H1 as (f1 & o1 & e1 & a1 & p1 & E1 & F1 & O1 & C1).
    destruct H2 as (f2 & o2 & e2 & a2 & p2 & E2 & F2 & O2 & C2).
    destruct H3 as (f3 & o3 & e3 & a3 & p3 & E3 & F3 & O3 & C3).
    destruct H4 as (f4 & o4 & e4 & a4 & p4 & E4 & F4 & O4 & C4).
    injection E1 as <- <- <-. injection E2 as <- <- <-.
    injection E3 as <- <- <-. injection E4 as <- <- <-.
    vm_compute in F1, F2, F3, F4, O1, O2, O3, O4.
    injection F1 as <-. injection F2 as <-. injection F3 as <-. injection F4 as <-.
    injection O1 as <-. injection O2 as <-. injection O3 as <-. injection O4 as <-.
    rewrite apply_op_int in C2, C4. injection C2 as C2. injection C4 as C4.
    apply Z.leb_le in C2. apply Z.eqb_eq in C4. auto.
  - intros (C1 & C2 & C3 & C4).
    repeat constructor.
    + exists (VStr "cgpa"), (VStr ">="), (VFloat 3.7), (VFloat cgpa), Ge.
      repeat split; [reflexivity.. | exact C1].
    + exists (VStr "co_curricular_score"), (VStr ">="), (VInt 80),
        (VInt co_curricular_score), Ge.
      repeat split; [reflexivity..|].
      rewrite apply_op_int. f_equal. apply Z.leb_le, C2.
    + exists (VStr "family_income"), (VStr "<="), (VInt 8000),
        (VFloat family_income), Le.
      repeat split; [reflexivity.. | exact C3].
    + exists (VStr "disciplinary_actions"), (VStr "=="), (VInt 0),
        (VInt disciplinary_actions), Eq_.
      repeat split; [reflexivity..|].
      rewrite apply_op_int. f_equal. apply Z.eqb_eq, C4.
Qed.

End Form.

(** With the default rules, the community service hours and the current
    semester entered in the form have no effect on the result. *)
Theorem form_unused_fields
    (cgpa family_income : float)
    (co_curricular_score disciplinary_actions h s h' s' : Z) :
  evaluate_applicant
    (applicant_facts cgpa family_income co_curricular_score h s
       disciplinary_actions) DEFAULT_RULES
  = evaluate_applicant
      (applicant_facts cgpa family_income co_curricular_score h' s'
         disciplinary_actions) DEFAULT_RULES.
Proof.
  apply evaluate_applicant_filter_ext.
  assert (Hagree : forall rule, In rule DEFAULT_RULES ->
            matches (applicant_facts cgpa family_income co_curricular_score h s
                       disciplinary_actions) rule
            = matches (applicant_facts cgpa family_income co_curricular_score
                         h' s' disciplinary_actions) rule)
    by (intros rule Hin; apply form_default_rule_agree, Hin).
  induction DEFAULT_RULES as [|r rules IH]; [reflexivity|].
  simpl. rewrite (Hagree r (or_introl eq_refl)).
  rewrite IH by (intros rule Hin; apply Hagree; right; exact Hin).
  reflexivity.
Qed.

(** From the form to the decision, with the default rules: the full award
    is decided exactly when the CGPA is at least 3.7, the co-curricular
    score at least 80, the family income at most 8000 and there is no
    disciplinary action. *)
Theorem form_award_full_iff
    (cgpa family_income : float)
    (co_curricular_score community_service_hours current_semester
       disciplinary_actions : Z) :
  exists result : Result,
    evaluate_applicant
      (applicant_facts cgpa family_income co_curricular_score
         community_service_hours current_semester disciplinary_actions)
      DEFAULT_RULES = Ok result
    /\ (decision result = "AWARD_FULL" <->
        apply_op Ge (VFloat cgpa) (VFloat 3.7) = Ok true
        /\ 80 <= co_curricular_score
        /\ apply_op Le (VFloat family_income) (VInt 8000) = Ok true
        /\ disciplinary_actions = 0).
Proof.
  set (facts := applicant_facts cgpa family_income co_curricular_score
                  community_service_hours current_semester disciplinary_actions).
  destruct (default_rules_table facts) as (result & Heval & Hdec & _).
  exists result. split; [exact Heval|].
  rewrite <- (top_merit_on_form cgpa family_income co_curricular_score
                community_service_hours current_semester disciplinary_actions).
  fold facts. rewrite <- matches_true, Hdec.
  destruct (matches facts rule_top_merit); [tauto|].
  destruct (matches facts rule_low_cgpa || matches facts rule_disciplinary),
    (matches facts rule_good_candidate); split; discriminate.
Qed.

(** ** The report of [main] *)

(** When every decision written in the rule set is one of the four known
    ones, the banner of the report is one of the four fixed banners, never
    the fallback [st.info]. *)
Theorem report_banner_known
    (facts : gmap string value) (rules : list Rule) (result : Result) :
  evaluate_applicant facts rules = Ok result ->
  (forall r a d, In r rules -> action r = Some a -> act_decision a = Some d ->
     known_decision d) ->
  In (decision_banner (decision result))
    [ StSuccess "✅ Decision: AWARD_FULL";
      StSuccess "✅ Decision: AWARD_PARTIAL";
      StWarning "⚠️ Decision: REVIEW";
      StError "❌ Decision: REJECT" ].
Proof.
  intros Heval Hknown.
  assert (Hd : known_decision (decision result)).
  { destruct (decision_from_rules facts rules result Heval)
      as [-> | (r & a & Hr & _ & Ha & Hd)].
    - right. right. left. reflexivity.
    - apply (Hknown r a _ Hr Ha Hd). }
  destruct Hd as [-> | [-> | [-> | ->]]]; simpl; tauto.
Qed.

Lemma report_banner_known_witness :
  In (decision_banner "REJECT")
    [ StSuccess "✅ Decision: AWARD_FULL";
      StSuccess "✅ Decision: AWARD_PARTIAL";
      StWarning "⚠️ Decision: REVIEW";
      StError "❌ Decision: REJECT" ].
Proof.
  apply (report_banner_known applicant_rejected DEFAULT_RULES
           {| decision := "REJECT";
              reason := "CGPA below minimum scholarship requirement";
              matched_rules :=
                ["Low CGPA – not eligible"; "Serious disciplinary record"];
              selected_rule := Some "Low CGPA – not eligible" |}).
  - vm_compute. reflexivity.
  - intros r a d Hr Ha Hd. simpl in Hr.
    repeat (destruct Hr as [<-|Hr];
      [injection Ha as <-; injection Hd as <-; unfold known_decision; tauto|]).
    destruct Hr.
Defined.

(** When no rule matches, the report is fixed: the REVIEW warning, the
    fixed reason, "None" for the selected rule and the single line
    "- (No rules matched)", followed by the facts. *)
Theorem report_no_match (facts : gmap string value) (rules : list Rule) :
  (forall r, In r rules -> rule_matches r facts <> Ok true) ->
  exists result : Result,
    evaluate_applicant facts rules = Ok result
    /\ show_result result facts =
         [ StSubheader "Decision";
           StWarning "⚠️ Decision: REVIEW";
           StMarkdown
             "**Reason:** No rules matched for this applicant. Rules may need review.";
           StMarkdown "### Rule engine details";
           StWrite "**Selected rule (highest priority match):** None";
           StWrite "**All matched rules:**";
           StWrite "- (No rules matched)";
           StMarkdown "### Applicant facts used";
           StJson facts ].
Proof.
  intros Hnone.
  assert (Hfilter : List.filter (matches facts) rules = []).
  { destruct (List.filter (matches facts) rules) as [|m rest] eqn:Hfilter;
      [reflexivity|].
    exfalso. assert (Hin : In m (List.filter (matches facts) rules))
      by (rewrite Hfilter; left; reflexivity).
    apply filter_matches_In in Hin as [Hin Hm]. exact (Hnone m Hin Hm). }
  eexists. split; [apply evaluate_applicant_no_match, Hfilter|].
  reflexivity.
Qed.

Lemma report_no_match_witness :
  exists result : Result,
    evaluate_applicant ∅ DEFAULT_RULES = Ok result
    /\ show_result result ∅ =
         [ StSubheader "Decision";
           StWarning "⚠️ Decision: REVIEW";
           StMarkdown
             "**Reason:** No rules matched for this applicant. Rules may need review.";
           StMarkdown "### Rule engine details";
           StWrite "**Selected rule (highest priority match):** None";
           StWrite "**All matched rules:**";
           StWrite "- (No rules matched)";
           StMarkdown "### Applicant facts used";
           StJson ∅ ].
Proof.
  apply (report_no_match ∅ DEFAULT_RULES).
  intros r Hin.
  repeat (destruct Hin as [<-|Hin]; [vm_compute; discriminate|]).
  destruct Hin.
Defined.

(** When some rule matches, the report lists the matched rules one per
    line, in the order of the rule set, and never the line
    "- (No rules matched)" in their place. *)
Theorem report_lists_matched
    (facts : gmap string value) (rules : list Rule) (result : Result) :
  evaluate_applicant facts rules = Ok result ->
  (exists r, In r rules /\ rule_matches r facts = Ok true) ->
  exists before after : list st_call,
    show_result result facts =
      (before
       ++ map (fun r => StWrite ("- " ++ rule_name r))
            (List.filter (matches facts) rules)
       ++ after)%list
    /\ length before = 6%nat /\ length after = 2%nat
    /\ List.filter (matches facts) rules <> [].
Proof.
  intros Heval (r & Hr & Hm).
  destruct (List.filter (matches facts) rules) as [|m rest] eqn:Hfilter.
  - exfalso. assert (Hin : In r (List.filter (matches facts) rules))
      by (apply filter_matches_In; split; assumption).
    rewrite Hfilter in Hin. exact Hin.
  - rewrite (evaluate_applicant_match facts rules m rest Hfilter) in Heval.
    injection Heval as <-. unfold show_result.
    cbn [matched_rules is_empty map]. eexists. eexists.
    split; [|split; [|split; [|discriminate]]].
    + rewrite map_map. reflexivity.
    + reflexivity.
    + reflexivity.
Qed.

Lemma report_lists_matched_witness :
  exists before after : list st_call,
    show_result
      {| decision := "REJECT";
         reason := "CGPA below minimum scholarship requirement";
         matched_rules :=
           ["Low CGPA – not eligible"; "Serious disciplinary record"];
         selected_rule := Some "Low CGPA – not eligible" |} applicant_rejected =
      (before
       ++ map (fun r => StWrite ("- " ++ rule_name r))
            (List.filter (matches applicant_rejected) DEFAULT_RULES)
       ++ after)%list
    /\ length before = 6%nat /\ length after = 2%nat
    /\ List.filter (matches applicant_rejected) DEFAULT_RULES <> [].
Proof.
  apply (report_lists_matched applicant_rejected DEFAULT_RULES).
  - vm_compute. reflexivity.
  - exists rule_low_cgpa. split; [simpl; auto | vm_compute; reflexivity].
Defined.

(** ** The condition evaluator on any JSON rule: properties *)

Example characters_utf8 :
  characters "Low – é!" = ["L"; "o"; "w"; " "; "–"; " "; "é"; "!"].
Proof. reflexivity. Qed.

(** A string of three characters is a condition of three strings. *)
Example check_cond_json_string :
  check_cond_json (JScalar (VStr "a>1")) {[ "a" := VStr "2" ]} = Ok true.
Proof. reflexivity. Qed.

(** On a condition that is a list of scalars, the loop body on JSON is
    [check_cond]. *)
Lemma check_cond_json_scalars (facts : gmap string value) (c : list value) :
  check_cond_json (cond_json c) facts = check_cond c facts.
Proof.
  unfold check_cond_json, check_cond, cond_json. cbn [py_len mbind res_bind].
  rewrite length_map.
  destruct (Nat.eq_dec (length c) 3%nat) as [Hlen|Hlen].
  - destruct (unpack3_length c Hlen) as (f & o & e & ->). simpl.
    unfold contains_json, getitem_json, OPERATORS_get_json, contains, getitem.
    simpl. destruct (facts_get facts f) as [a|]; simpl; [|reflexivity].
    destruct (OPERATORS_get o) as [op_func|]; reflexivity.
  - destruct (Nat.eqb_spec (length c) 3%nat); [contradiction|reflexivity].
Qed.

Lemma rule_matches_json_loop_scalars (facts : gmap string value)
    (conds : list (list value)) :
  rule_matches_json_loop (map cond_json conds) facts =
    rule_matches_loop conds facts.
Proof.
  induction conds as [|c conds IH]; simpl; [reflexivity|].
  rewrite check_cond_json_scalars.
  destruct (check_cond c facts) as [[|]|e]; simpl; [exact IH|reflexivity..].
Qed.

(** [rule_matches] is [rule_matches_json] on the rule objects whose
    "conditions" entry is absent or a list of lists of scalars. *)
Lemma rule_matches_json_scalars (facts : gmap string value)
    (rule : list (string * json)) (conds : option (list (list value))) :
  json_get rule "conditions" = option_map conds_json conds ->
  rule_matches_json rule facts = rule_matches_loop (get conds []) facts.
Proof.
  intros Hc. unfold rule_matches_json. rewrite Hc.
  destruct conds as [conds|]; simpl; [|reflexivity].
  apply rule_matches_json_loop_scalars.
Qed.

(** C6, at inputs on which it fails.  The rule object
    [{"conditions": [5, ["cgpa", ">="]]}] has a condition of two elements,
    yet [rule_matches] raises TypeError on it for any facts, at [len(5)];
    so does [{"conditions": [[["cgpa"], "!=", 3.7]]}], whose operator is not
    one of the five symbols, at [field not in facts]: the length test, the
    membership test and [OPERATORS.get] stand outside the [try]. *)
Theorem rule_matches_json_raises_on_malformed (facts : gmap string value) :
  (exists c, py_iter (get (json_get rule_unsized_condition "conditions") (JList []))
               = Ok [JScalar (VInt 5); c]
             /\ py_len c = Ok 2%nat)
  /\ rule_matches_json rule_unsized_condition facts = Raise TypeError
  /\ (exists field expected,
        py_iter (get (json_get rule_unhashable_field "conditions") (JList []))
          = Ok [JList [field; JScalar (VStr "!="); expected]]
        /\ ~ In (VStr "!=") operator_symbols)
  /\ rule_matches_json rule_unhashable_field facts = Raise TypeError.
Proof.
  split; [|split; [|split]].
  - eexists. split; reflexivity.
  - reflexivity.
  - eexists. eexists. split; [reflexivity|].
    unfold operator_symbols. simpl.
    intros [H|[H|[H|[H|[H|[]]]]]]; discriminate H.
  - reflexivity.
Qed.

(** The same rule with its two conditions exchanged returns [False]: the
    short condition comes first and ends the loop. *)
Example rule_matches_json_short_first (facts : gmap string value) :
  rule_matches_json rule_short_then_unsized facts = Ok false.
Proof. reflexivity. Qed.

Example rule_matches_json_unhashable_operator :
  rule_matches_json rule_unhashable_operator applicant_merit = Raise TypeError.
Proof. reflexivity. Qed.

Example rule_matches_json_null_conditions (facts : gmap string value) :
  rule_matches_json rule_null_conditions facts = Raise TypeError.
Proof. reflexivity. Qed.

(** What holds of the three cases of malformed conditions: on a rule whose
    conditions are lists of scalars, each of them gives [False]. *)
Lemma rule_matches_json_scalar_conditions_malformed
    (rule : list (string * json)) (conds : list (list value))
    (facts : gmap string value) (c : list value) :
  json_get rule "conditions" = Some (conds_json conds) ->
  In c conds ->
  length c <> 3%nat
  \/ (exists field op_str expected,
        c = [field; op_str; expected] /\ ~ In op_str operator_symbols)
  \/ (exists s op_str expected,
        c = [VStr s; op_str; expected] /\ facts !! s = None) ->
  rule_matches_json rule facts = Ok false.
Proof.
  intros Hc Hin Hbad.
  rewrite (rule_matches_json_scalars facts rule (Some conds) Hc). simpl.
  apply (rule_matches_loop_false facts _ c Hin).
  destruct Hbad as [Hlen | [(f & o & e & -> & Ho) | (s & o & e & -> & Hs)]].
  - apply check_cond_arity, Hlen.
  - apply check_cond_unknown, OPERATORS_get_unknown, Ho.
  - apply check_cond_missing. exact Hs.
Qed.

(** On a rule object whose "conditions" entry is absent or a list of lists
    of scalars, [rule_matches] does not raise (the unpacking and
    [facts[field]] are guarded, the comparison is inside [try]) and returns
    [True] exactly when every condition holds. *)
Theorem rule_matches_returns_iff_all_hold
    (rule : list (string * json)) (conds : option (list (list value)))
    (facts : gmap string value) :
  json_get rule "conditions" = option_map conds_json conds ->
  (exists b : bool, rule_matches_json rule facts = Ok b)
  /\ (rule_matches_json rule facts = Ok true <->
      Forall (cond_holds facts) (get conds [])).
Proof.
  intros Hc. rewrite (rule_matches_json_scalars facts rule conds Hc).
  split; [apply rule_matches_loop_total | apply rule_matches_loop_true_iff].
Qed.

Lemma rule_matches_returns_iff_all_hold_witness :
  (exists b : bool, rule_matches_json rule_need_object applicant_merit = Ok b)
  /\ (rule_matches_json rule_need_object applicant_merit = Ok true <->
      Forall (cond_holds applicant_merit)
        [ cond "cgpa" ">=" (VFloat 2.5); cond "family_income" "<=" (VInt 4000) ]).
Proof.
  apply (rule_matches_returns_iff_all_hold rule_need_object
           (Some [ cond "cgpa" ">=" (VFloat 2.5);
                   cond "family_income" "<=" (VInt 4000) ])
           applicant_merit).
  reflexivity.
Defined.

(** On rule objects whose conditions are lists of scalars, the order of
    the conditions does not change the result.  (With other conditions it
    can: see [rule_unsized_condition] and [rule_short_then_unsized].) *)
Theorem rule_matches_conditions_order
    (facts : gmap string value) (rule rule' : list (string * json))
    (conds conds' : list (list value)) :
  json_get rule "conditions" = Some (conds_json conds) ->
  json_get rule' "conditions" = Some (conds_json conds') ->
  Permutation conds conds' ->
  rule_matches_json rule facts = rule_matches_json rule' facts.
Proof.
  intros Hc Hc' Hperm.
  rewrite (rule_matches_json_scalars facts rule (Some conds) Hc).
  rewrite (rule_matches_json_scalars facts rule' (Some conds') Hc').
  simpl. rewrite !rule_matches_loop_forallb.
  f_equal. apply forallb_Permutation, Hperm.
Qed.

Lemma rule_matches_conditions_order_witness :
  rule_matches_json rule_need_object applicant_merit =
    rule_matches_json rule_need_swapped_object applicant_merit.
Proof.
  apply (rule_matches_conditions_order applicant_merit
           rule_need_object rule_need_swapped_object
           [ cond "cgpa" ">=" (VFloat 2.5); cond "family_income" "<=" (VInt 4000) ]
           [ cond "family_income" "<=" (VInt 4000); cond "cgpa" ">=" (VFloat 2.5) ]).
  - reflexivity.
  - reflexivity.
  - apply perm_swap.
Defined.
